(** * Joystick.c: the report synthesizer of the Splatmeme printer

    A shallow embedding of [GetNextReport] (src/Joystick.c) and of the
    macros and globals it uses, followed by the properties of the spec
    that concern it.

    C [int] variables are embedded as [Z].  All of them stay within
    [0, 320] in every reachable state ([Inv_counters_small] below), so the
    16-bit [int] of the target never overflows and the unbounded embedding
    loses nothing.  Stores into the [uint8_t] and [uint16_t] fields of the
    report write out the implicit conversion ([u8], [u16]).  C's [/] and
    [%] truncate toward zero: [Z.quot] and [Z.rem]. *)

From Stdlib Require Import ZArith List Lia Bool.
Import ListNotations.
Open Scope Z_scope.

(** ** Joystick.h *)

(** Joystick.h is not among the sources.  The constants [GetNextReport] takes
    from it are the fields of this class: every definition below is
    parametric in them and no numeric value is assumed.  [POLLING_MS] is the
    polling interval of the descriptors, the [STICK_*] and [HAT_*] constants
    are stored in 8-bit fields of the report and the [SWITCH_*] constants are
    or-ed into its 16-bit button field. *)
Class JoystickH : Set := {
  POLLING_MS : Z;
  STICK_MIN : Z;
  STICK_CENTER : Z;
  HAT_TOP : Z;
  HAT_RIGHT : Z;
  HAT_BOTTOM : Z;
  HAT_LEFT : Z;
  HAT_CENTER : Z;
  SWITCH_A : Z;
  SWITCH_LCLICK : Z
}.

(** Modelled from the spec: the report structure is declared in the absent
    Joystick.h; the fields are those of the wire layout of section 6 (a
    16-bit button mask, the HAT byte, four 8-bit stick axes and the
    vendor-specific byte). *)
Record USB_JoystickReport_Input_t : Set := {
  Button : Z;
  HAT : Z;
  LX : Z;
  LY : Z;
  RX : Z;
  RY : Z;
  VendorSpec : Z
}.

Definition u8 (v : Z) : Z := v mod 256.
Definition u16 (v : Z) : Z := v mod 65536.

(** [memset(ReportData, 0, sizeof(USB_JoystickReport_Input_t))]: every byte of
    the structure is overwritten, whatever it held. *)
Definition memset0 (_ : USB_JoystickReport_Input_t) : USB_JoystickReport_Input_t :=
  {| Button := 0; HAT := 0; LX := 0; LY := 0; RX := 0; RY := 0; VendorSpec := 0 |}.

Definition set_Button (r : USB_JoystickReport_Input_t) (v : Z) :=
  {| Button := v; HAT := HAT r; LX := LX r; LY := LY r; RX := RX r; RY := RY r;
     VendorSpec := VendorSpec r |}.
Definition set_HAT (r : USB_JoystickReport_Input_t) (v : Z) :=
  {| Button := Button r; HAT := v; LX := LX r; LY := LY r; RX := RX r; RY := RY r;
     VendorSpec := VendorSpec r |}.
Definition set_LX (r : USB_JoystickReport_Input_t) (v : Z) :=
  {| Button := Button r; HAT := HAT r; LX := v; LY := LY r; RX := RX r; RY := RY r;
     VendorSpec := VendorSpec r |}.
Definition set_LY (r : USB_JoystickReport_Input_t) (v : Z) :=
  {| Button := Button r; HAT := HAT r; LX := LX r; LY := v; RX := RX r; RY := RY r;
     VendorSpec := VendorSpec r |}.
Definition set_RX (r : USB_JoystickReport_Input_t) (v : Z) :=
  {| Button := Button r; HAT := HAT r; LX := LX r; LY := LY r; RX := v; RY := RY r;
     VendorSpec := VendorSpec r |}.
Definition set_RY (r : USB_JoystickReport_Input_t) (v : Z) :=
  {| Button := Button r; HAT := HAT r; LX := LX r; LY := LY r; RX := RX r; RY := v;
     VendorSpec := VendorSpec r |}.

(** ** Joystick.c: globals *)

Inductive State_t : Set :=
| SYNC_CONTROLLER
| SYNC_POSITION
| MOVE
| STOP
| DONE.

Definition ECHOES : Z := 2.

(** The file-scope variables [GetNextReport] reads or writes.  ([report_count]
    and [portsval] are declared next to them and never used.) *)
Record Globals : Set := {
  state : State_t;
  echoes : Z;
  splat3_lag_correction_count : Z;
  last_report : USB_JoystickReport_Input_t;
  command_count : Z;
  xpos : Z;
  ypos : Z
}.

Definition set_state (g : Globals) (v : State_t) :=
  {| state := v; echoes := echoes g;
     splat3_lag_correction_count := splat3_lag_correction_count g;
     last_report := last_report g; command_count := command_count g;
     xpos := xpos g; ypos := ypos g |}.
Definition set_echoes (g : Globals) (v : Z) :=
  {| state := state g; echoes := v;
     splat3_lag_correction_count := splat3_lag_correction_count g;
     last_report := last_report g; command_count := command_count g;
     xpos := xpos g; ypos := ypos g |}.
Definition set_splat3_lag_correction_count (g : Globals) (v : Z) :=
  {| state := state g; echoes := echoes g;
     splat3_lag_correction_count := v;
     last_report := last_report g; command_count := command_count g;
     xpos := xpos g; ypos := ypos g |}.
Definition set_last_report (g : Globals) (v : USB_JoystickReport_Input_t) :=
  {| state := state g; echoes := echoes g;
     splat3_lag_correction_count := splat3_lag_correction_count g;
     last_report := v; command_count := command_count g;
     xpos := xpos g; ypos := ypos g |}.
Definition set_command_count (g : Globals) (v : Z) :=
  {| state := state g; echoes := echoes g;
     splat3_lag_correction_count := splat3_lag_correction_count g;
     last_report := last_report g; command_count := v;
     xpos := xpos g; ypos := ypos g |}.
Definition set_xpos (g : Globals) (v : Z) :=
  {| state := state g; echoes := echoes g;
     splat3_lag_correction_count := splat3_lag_correction_count g;
     last_report := last_report g; command_count := command_count g;
     xpos := v; ypos := ypos g |}.
Definition set_ypos (g : Globals) (v : Z) :=
  {| state := state g; echoes := echoes g;
     splat3_lag_correction_count := splat3_lag_correction_count g;
     last_report := last_report g; command_count := command_count g;
     xpos := xpos g; ypos := v |}.

(** The initializers of the globals; [last_report] has static storage and is
    zero-initialized. *)
Definition initial : Globals :=
  {| state := SYNC_CONTROLLER; echoes := 0; splat3_lag_correction_count := 0;
     last_report :=
       {| Button := 0; HAT := 0; LX := 0; LY := 0; RX := 0; RY := 0; VendorSpec := 0 |};
     command_count := 0; xpos := 0; ypos := 0 |}.

(** ** Joystick.c: macros and [GetNextReport] *)

Section Joystick.

Context {joystick_h : JoystickH}.

(** [extern const uint8_t image_data[0x12c1] PROGMEM]: the bytes of the array
    defined elsewhere. *)
Variable image_data : list Z.

Definition image_data_size : Z := 0x12c1.

(** [#define max(a, b) (a > b ? a : b)] *)
Definition max (a b : Z) : Z := if a >? b then a else b.

(** [#define ms_2_count(ms) (ms / ECHOES / (max(POLLING_MS, 8) / 8 * 8))] *)
Definition ms_2_count (ms : Z) : Z :=
  Z.quot (Z.quot ms ECHOES) (Z.quot (max POLLING_MS 8) 8 * 8).

(** [pgm_read_byte(&(image_data[i]))]: the byte at index [i]; there is none
    outside the array. *)
Definition pgm_read_byte (i : Z) : option Z :=
  if i <? 0 then None else nth_error image_data (Z.to_nat i).

(** The index expression of [is_black]. *)
Definition is_black_index (x y : Z) : Z := Z.quot x 8 + y * 40.

(** [#define is_black(x, y)
      (pgm_read_byte(&(image_data[((x) / 8) + ((y) * 40)])) & 1 << ((x) % 8))]:
    [<<] binds tighter than [&]; the value is an [int], used as a condition. *)
Definition is_black (x y : Z) : option Z :=
  match pgm_read_byte (is_black_index x y) with
  | Some b => Some (Z.land b (Z.shiftl 1 (Z.rem x 8)))
  | None => None
  end.

(** The body of the [switch] for the four states that fall out of it through
    [break]; [None] is a read outside [image_data].  ([case DONE] returns from
    the function: [GetNextReport] below takes it before it comes here.) *)
Definition states_and_moves (g : Globals) (ReportData : USB_JoystickReport_Input_t)
  : option (Globals * USB_JoystickReport_Input_t) :=
  match state g with
  | SYNC_CONTROLLER =>
      if command_count g >? ms_2_count 2000 then
        let g := set_command_count g 0 in
        let g := set_state g SYNC_POSITION in
        Some (g, ReportData)
      else
        let g := set_command_count g (command_count g + 1) in
        Some (g, ReportData)
  | SYNC_POSITION =>
      if command_count g >? ms_2_count 4000 then
        let g := set_command_count g 0 in
        let g := set_xpos g 0 in
        let g := set_ypos g 0 in
        let g := set_state g STOP in
        Some (g, ReportData)
      else
        let ReportData := set_LX ReportData (u8 STICK_MIN) in
        let ReportData := set_LY ReportData (u8 STICK_MIN) in
        let ReportData :=
          if (command_count g =? ms_2_count 1500) || (command_count g =? ms_2_count 3000)
          then set_Button ReportData (u16 (Z.lor (Button ReportData) SWITCH_LCLICK))
          else ReportData in
        let g := set_command_count g (command_count g + 1) in
        Some (g, ReportData)
  | MOVE =>
      let '(g, ReportData) :=
        if ((xpos g =? 0) && (Z.rem (ypos g) 2 =? 1))
           || ((xpos g =? 319) && (Z.rem (ypos g) 2 =? 0))
        then
          if splat3_lag_correction_count g <? 10 then
            let g := set_splat3_lag_correction_count g
                       (splat3_lag_correction_count g + 1) in
            if xpos g =? 0
            then (g, set_HAT ReportData (u8 HAT_LEFT))
            else (g, set_HAT ReportData (u8 HAT_RIGHT))
          else
            let g := set_splat3_lag_correction_count g 0 in
            (g, set_HAT ReportData (u8 HAT_BOTTOM))
        else if Z.rem (ypos g) 2 =? 0
        then (g, set_HAT ReportData (u8 HAT_RIGHT))
        else (g, set_HAT ReportData (u8 HAT_LEFT)) in
      let g := set_state g STOP in
      Some (g, ReportData)
  | STOP =>
      match is_black (xpos g) (ypos g) with
      | None => None
      | Some ink =>
          let ReportData :=
            if ink =? 0 then ReportData
            else set_Button ReportData (u16 (Z.lor (Button ReportData) SWITCH_A)) in
          let g := set_state g MOVE in
          let g := if ypos g >? 119 then set_state g DONE else g in
          Some (g, ReportData)
      end
  | DONE => Some (g, ReportData)
  end.

(** Lines 269-286: the position update. *)
Definition position_update (g : Globals) (ReportData : USB_JoystickReport_Input_t)
  : Globals :=
  match state g with
  | SYNC_CONTROLLER | SYNC_POSITION | DONE => g
  | _ =>
      if HAT ReportData =? HAT_RIGHT then
        if xpos g <? 319 then set_xpos g (xpos g + 1) else g
      else if HAT ReportData =? HAT_LEFT then
        if xpos g >? 0 then set_xpos g (xpos g - 1) else g
      else if HAT ReportData =? HAT_TOP then set_ypos g (ypos g - 1)
      else if HAT ReportData =? HAT_BOTTOM then set_ypos g (ypos g + 1)
      else g
  end.

(** [void GetNextReport(USB_JoystickReport_Input_t *const ReportData)]: the
    globals and the pointed-to buffer go in, their new contents come out. *)
Definition GetNextReport (g : Globals) (ReportData : USB_JoystickReport_Input_t)
  : option (Globals * USB_JoystickReport_Input_t) :=
  (* Prepare an empty report *)
  let ReportData := memset0 ReportData in
  let ReportData := set_LX ReportData (u8 STICK_CENTER) in
  let ReportData := set_LY ReportData (u8 STICK_CENTER) in
  let ReportData := set_RX ReportData (u8 STICK_CENTER) in
  let ReportData := set_RY ReportData (u8 STICK_CENTER) in
  let ReportData := set_HAT ReportData (u8 HAT_CENTER) in
  (* Repeat ECHOES times the last report *)
  if echoes g >? 0 then
    let ReportData := last_report g in
    let g := set_echoes g (echoes g - 1) in
    Some (g, ReportData)
  else
    (* States and moves management *)
    match state g with
    | DONE => Some (g, ReportData)
    | _ =>
        match states_and_moves g ReportData with
        | None => None
        | Some (g, ReportData) =>
            let g := position_update g ReportData in
            (* Prepare to echo this report *)
            let g := set_last_report g ReportData in
            let g := set_echoes g ECHOES in
            Some (g, ReportData)
        end
    end.

(** ** Call sequences *)

(** The buffer [HID_Task] passes is a local it never initializes; the
    sequences below pass [blank], and [GetNextReport_buffer] shows that the
    choice is immaterial. *)
Definition blank : USB_JoystickReport_Input_t :=
  {| Button := 0; HAT := 0; LX := 0; LY := 0; RX := 0; RY := 0; VendorSpec := 0 |}.

(** Successive calls, one per buffer handed in, with the reports they
    deliver. *)
Fixpoint polls (bufs : list USB_JoystickReport_Input_t) (g : Globals)
  : option (Globals * list USB_JoystickReport_Input_t) :=
  match bufs with
  | [] => Some (g, [])
  | b :: bufs' =>
      match GetNextReport g b with
      | None => None
      | Some (g1, r) =>
          match polls bufs' g1 with
          | None => None
          | Some (g2, rs) => Some (g2, r :: rs)
          end
      end
  end.

(** The states some sequence of calls leads to. *)
Inductive reachable : Globals -> Prop :=
| reach_initial : reachable initial
| reach_call g b g' r :
    reachable g -> GetNextReport g b = Some (g', r) -> reachable g'.

(** One logical step: a call and the [ECHOES] calls after it.  From a state
    without pending echoes whose phase is not [DONE] these are the fresh
    synthesis and its replays; the report kept is the first one. *)
Definition logical_step (g : Globals) : option (Globals * USB_JoystickReport_Input_t) :=
  match GetNextReport g blank with
  | None => None
  | Some (g1, r1) =>
      match GetNextReport g1 blank with
      | None => None
      | Some (g2, _) =>
          match GetNextReport g2 blank with
          | None => None
          | Some (g3, _) => Some (g3, r1)
          end
      end
  end.

(** [n] logical steps and the reports of their first calls. *)
Fixpoint steps (n : nat) (g : Globals)
  : option (Globals * list USB_JoystickReport_Input_t) :=
  match n with
  | O => Some (g, [])
  | S n' =>
      match logical_step g with
      | None => None
      | Some (g1, r) =>
          match steps n' g1 with
          | None => None
          | Some (g2, rs) => Some (g2, r :: rs)
          end
      end
  end.

(** [n] logical steps lead from [g] to [g']. *)
Definition leads_to (n : nat) (g g' : Globals) : Prop :=
  exists rs, steps n g = Some (g', rs).

(** ** Vocabulary of the properties *)

(** The neutral report of lines 179-184. *)
Definition neutral_report : USB_JoystickReport_Input_t :=
  {| Button := 0; HAT := u8 HAT_CENTER; LX := u8 STICK_CENTER; LY := u8 STICK_CENTER;
     RX := u8 STICK_CENTER; RY := u8 STICK_CENTER; VendorSpec := 0 |}.

(** A button is asserted in a report when its mask meets the button field. *)
Definition asserted (mask : Z) (r : USB_JoystickReport_Input_t) : Prop :=
  Z.land (Button r) mask <> 0.

(** The HAT codes of Joystick.h are distinct values of the 8-bit field. *)
Definition hat_codes_ok : bool :=
  forallb (fun h => (0 <=? h) && (h <? 256))
    [HAT_TOP; HAT_RIGHT; HAT_BOTTOM; HAT_LEFT; HAT_CENTER]
  && negb (HAT_TOP =? HAT_RIGHT) && negb (HAT_TOP =? HAT_BOTTOM)
  && negb (HAT_TOP =? HAT_LEFT) && negb (HAT_TOP =? HAT_CENTER)
  && negb (HAT_RIGHT =? HAT_BOTTOM) && negb (HAT_RIGHT =? HAT_LEFT)
  && negb (HAT_RIGHT =? HAT_CENTER) && negb (HAT_BOTTOM =? HAT_LEFT)
  && negb (HAT_BOTTOM =? HAT_CENTER) && negb (HAT_LEFT =? HAT_CENTER).

(** A button mask of Joystick.h is a non-zero value of the 16-bit field. *)
Definition button_mask_ok (mask : Z) : bool := (0 <? mask) && (mask <? 65536).

(** The reports the phases produce: the neutral report with the HAT set, the
    report of a [STOP] step at [(x, y)], the report of a [SYNC_POSITION] step
    taken at [command_count = k]. *)
Definition hat_report (h : Z) : USB_JoystickReport_Input_t :=
  set_HAT neutral_report (u8 h).

Definition ink_report (x y : Z) : USB_JoystickReport_Input_t :=
  match is_black x y with
  | Some ink =>
      if ink =? 0 then neutral_report
      else set_Button neutral_report (u16 (Z.lor 0 SWITCH_A))
  | None => neutral_report
  end.

Definition sync_report (k : Z) : USB_JoystickReport_Input_t :=
  let r := set_LY (set_LX neutral_report (u8 STICK_MIN)) (u8 STICK_MIN) in
  if (k =? ms_2_count 1500) || (k =? ms_2_count 3000)
  then set_Button r (u16 (Z.lor 0 SWITCH_LCLICK))
  else r.

(** The states of the two synchronisation phases, by the value of
    [command_count]. *)
Definition controller_state (k : Z) : Globals :=
  {| state := SYNC_CONTROLLER; echoes := 0; splat3_lag_correction_count := 0;
     last_report := if k =? 0 then blank else neutral_report;
     command_count := k; xpos := 0; ypos := 0 |}.

Definition position_state (k : Z) : Globals :=
  {| state := SYNC_POSITION; echoes := 0; splat3_lag_correction_count := 0;
     last_report := if k =? 0 then neutral_report else sync_report (k - 1);
     command_count := k; xpos := 0; ypos := 0 |}.

(** The logical steps from [initial] to the first [STOP] step. *)
Definition draw_start : Z := ms_2_count 2000 + ms_2_count 4000 + 4.

(** The scan, in closed form.  A row takes 330 pairs of a [STOP] and a [MOVE]
    step; pair [c] of row [y] finds the pen at column [scan_x y c] with the
    lag counter at [scan_lag c], and its [MOVE] step reports [scan_hat y c]. *)
Definition scan_dir (y : Z) : Z := if Z.even y then HAT_RIGHT else HAT_LEFT.

Definition scan_x (y c : Z) : Z :=
  if Z.even y then Z.min c 319 else 319 - Z.min c 319.

Definition scan_lag (c : Z) : Z := Z.max 0 (c - 319).

(** The column at which row [y] ends. *)
Definition edge_column (y : Z) : Z := if Z.even y then 319 else 0.

Definition scan_hat (y c : Z) : Z := if c =? 329 then HAT_BOTTOM else scan_dir y.

Definition arrival_report (y c : Z) : USB_JoystickReport_Input_t :=
  if c =? 0 then (if y =? 0 then neutral_report else hat_report HAT_BOTTOM)
  else hat_report (scan_dir y).

Definition stop_state (y c : Z) : Globals :=
  {| state := STOP; echoes := 0; splat3_lag_correction_count := scan_lag c;
     last_report := arrival_report y c;
     command_count := 0; xpos := scan_x y c; ypos := y |}.

Definition move_state (y c : Z) : Globals :=
  {| state := MOVE; echoes := 0; splat3_lag_correction_count := scan_lag c;
     last_report := ink_report (scan_x y c) y;
     command_count := 0; xpos := scan_x y c; ypos := y |}.

Definition done_state : Globals :=
  {| state := DONE; echoes := 0; splat3_lag_correction_count := 0;
     last_report := ink_report 0 120;
     command_count := 0; xpos := 0; ypos := 120 |}.

(** The row boundary of the [MOVE] case. *)
Definition at_boundary (x y : Z) : Prop :=
  (x = 0 /\ Z.rem y 2 = 1) \/ (x = 319 /\ Z.rem y 2 = 0).

(** The pen is on the canvas. *)
Definition on_canvas (x y : Z) : Prop := 0 <= x <= 319 /\ 0 <= y <= 119.

(** The call about to be made from [g] evaluates [is_black]: no echo is
    pending and the phase is [STOP]. *)
Definition queries_bitmap (g : Globals) : Prop :=
  echoes g = 0 /\ state g = STOP.

(** What holds of the globals in every reachable state. *)
Definition Inv (g : Globals) : Prop :=
  0 <= echoes g <= ECHOES /\
  0 <= command_count g <= ms_2_count 4000 + 1 /\
  0 <= splat3_lag_correction_count g <= 10 /\
  match state g with
  | SYNC_CONTROLLER =>
      command_count g <= ms_2_count 2000 + 1 /\
      xpos g = 0 /\ ypos g = 0 /\ splat3_lag_correction_count g = 0
  | SYNC_POSITION =>
      xpos g = 0 /\ ypos g = 0 /\ splat3_lag_correction_count g = 0
  | MOVE =>
      command_count g = 0 /\ on_canvas (xpos g) (ypos g) /\
      (0 < splat3_lag_correction_count g -> at_boundary (xpos g) (ypos g))
  | STOP =>
      command_count g = 0 /\
      ((on_canvas (xpos g) (ypos g) /\
        (0 < splat3_lag_correction_count g -> at_boundary (xpos g) (ypos g)))
       \/ (xpos g = 0 /\ ypos g = 120 /\ splat3_lag_correction_count g = 0))
  | DONE =>
      command_count g = 0 /\
      xpos g = 0 /\ ypos g = 120 /\ splat3_lag_correction_count g = 0
  end.

End Joystick.

(** ** Concrete instances *)

(** A header to run the definitions on: the HAT codes as section 6 of the
    spec numbers them, a mid-scale stick centre, two button bits and a polling
    interval of 8 ms.  With it [ms_2_count 2000 = 125] and
    [ms_2_count 4000 = 250]. *)
Definition sample_header : JoystickH :=
  {| POLLING_MS := 8; STICK_MIN := 0; STICK_CENTER := 128;
     HAT_TOP := 1; HAT_RIGHT := 3; HAT_BOTTOM := 5; HAT_LEFT := 7; HAT_CENTER := 0;
     SWITCH_A := 4; SWITCH_LCLICK := 1024 |}.

(** The all-white bitmap. *)
Definition white_image : list Z := repeat 0 4801.

(** A bitmap whose only ink is the pixel [(9, 1)]: bit 1 of byte 41. *)
Definition dot_image : list Z := repeat 0 41 ++ [2] ++ repeat 0 4759.

(** A buffer holding something else than a report the machine produces. *)
Definition stale_buffer : USB_JoystickReport_Input_t :=
  {| Button := 65535; HAT := 15; LX := 255; LY := 255; RX := 255; RY := 255;
     VendorSpec := 255 |}.

(** ** Two statements of the spec, as it words them *)

Section Wording.

Context {joystick_h : JoystickH}.
Variable image_data : list Z.

(** Two states differ at most in the echo counter. *)
Definition same_but_echoes (g g' : Globals) : Prop :=
  g' = set_echoes g (echoes g').

(** The echo law at [g]: the report a call synthesizes from [g] is followed
    by exactly [ECHOES] replays of it, which change nothing but the echo
    counter, and then by the next synthesis. *)
Definition echo_law (g : Globals) : Prop :=
  forall b g1 r,
    GetNextReport image_data g b = Some (g1, r) ->
    0 < echoes g1 /\
    forall b2 b3, exists g2 g3,
      GetNextReport image_data g1 b2 = Some (g2, r) /\ same_but_echoes g1 g2 /\
      0 < echoes g2 /\
      GetNextReport image_data g2 b3 = Some (g3, r) /\ same_but_echoes g1 g3 /\
      echoes g3 <= 0.

(** The call leaves the caller's buffer as it found it. *)
Definition leaves_buffer_unpopulated (g : Globals) (b : USB_JoystickReport_Input_t)
  : Prop :=
  GetNextReport image_data g b = Some (g, b).

End Wording.

(** ** Joystick.c: [HID_Task] and the main loop *)

(** The LUFA functions [HID_Task] calls belong to the USB stack, not to this
    repository.  Their answers during one pass enter as a [Tick]; the calls
    that act on the stack leave in order, as a list of [USB_call]. *)
Inductive Endpoint_t : Set :=
| JOYSTICK_OUT_EPADDR
| JOYSTICK_IN_EPADDR.

Inductive USB_call : Set :=
| Endpoint_SelectEndpoint (ep : Endpoint_t)
| Endpoint_Read_Stream_LE (data : list Z)
| Endpoint_ClearOUT
| Endpoint_Write_Stream_LE (r : USB_JoystickReport_Input_t)
| Endpoint_ClearIN.

Record Tick : Set := {
  (** [USB_DeviceState == DEVICE_STATE_Configured] *)
  configured : bool;
  (** [Endpoint_IsOUTReceived()] *)
  out_received : bool;
  (** [Endpoint_IsReadWriteAllowed()] *)
  read_write_allowed : bool;
  (** the bytes the host sent, which [Endpoint_Read_Stream_LE] copies into
      [JoystickOutputData] *)
  out_data : list Z;
  (** [Endpoint_IsINReady()] *)
  in_ready : bool;
  (** what the uninitialized local [JoystickInputData] happens to hold *)
  JoystickInputData : USB_JoystickReport_Input_t
}.

Section Transport.

Context {joystick_h : JoystickH}.
Variable image_data : list Z.

(** [void HID_Task(void)] *)
Definition HID_Task (g : Globals) (t : Tick) : option (Globals * list USB_call) :=
  if negb (configured t) then Some (g, [])
  else
    (* the OUT endpoint *)
    let calls := [Endpoint_SelectEndpoint JOYSTICK_OUT_EPADDR] in
    let calls :=
      if out_received t then
        let calls :=
          if read_write_allowed t
          then calls ++ [Endpoint_Read_Stream_LE (out_data t)]
          else calls in
        calls ++ [Endpoint_ClearOUT]
      else calls in
    (* the IN endpoint *)
    let calls := calls ++ [Endpoint_SelectEndpoint JOYSTICK_IN_EPADDR] in
    if in_ready t then
      match GetNextReport image_data g (JoystickInputData t) with
      | None => None
      | Some (g, r) => Some (g, calls ++ [Endpoint_Write_Stream_LE r; Endpoint_ClearIN])
      end
    else Some (g, calls).

(** The [for (;;)] of [main], for as many passes as there are ticks;
    [USB_USBTask] is what makes one tick differ from the next. *)
Fixpoint main_loop (ticks : list Tick) (g : Globals)
  : option (Globals * list USB_call) :=
  match ticks with
  | [] => Some (g, [])
  | t :: ticks' =>
      match HID_Task g t with
      | None => None
      | Some (g1, calls) =>
          match main_loop ticks' g1 with
          | None => None
          | Some (g2, calls') => Some (g2, calls ++ calls')
          end
      end
  end.

(** The reports a list of calls writes to the host. *)
Fixpoint written (calls : list USB_call) : list USB_JoystickReport_Input_t :=
  match calls with
  | [] => []
  | Endpoint_Write_Stream_LE r :: calls' => r :: written calls'
  | _ :: calls' => written calls'
  end.

(** The host data a list of calls reads, and the OUT packets it
    acknowledges. *)
Fixpoint stream_reads (calls : list USB_call) : list (list Z) :=
  match calls with
  | [] => []
  | Endpoint_Read_Stream_LE data :: calls' => data :: stream_reads calls'
  | _ :: calls' => stream_reads calls'
  end.

Fixpoint out_acks (calls : list USB_call) : nat :=
  match calls with
  | [] => O
  | Endpoint_ClearOUT :: calls' => S (out_acks calls')
  | _ :: calls' => out_acks calls'
  end.

(** What the synthesizer and the host see of a run of the loop: the globals
    it ends with and the reports it wrote. *)
Definition outcome (res : option (Globals * list USB_call))
  : option (Globals * list USB_JoystickReport_Input_t) :=
  match res with
  | None => None
  | Some (g, calls) => Some (g, written calls)
  end.

(** The passes in which [HID_Task] finds an OUT packet, and those in which it
    may read it. *)
Definition out_pending (t : Tick) : bool := configured t && out_received t.
Definition out_readable (t : Tick) : bool := out_pending t && read_write_allowed t.

(** The passes in which [HID_Task] gets to the call of [GetNextReport]. *)
Definition delivers (t : Tick) : bool := configured t && in_ready t.

(** The reports [GetNextReport] can produce. *)
Definition report_alphabet : list USB_JoystickReport_Input_t :=
  [ neutral_report;
    hat_report HAT_LEFT; hat_report HAT_RIGHT; hat_report HAT_BOTTOM;
    set_Button neutral_report (u16 (Z.lor 0 SWITCH_A));
    set_LY (set_LX neutral_report (u8 STICK_MIN)) (u8 STICK_MIN);
    set_Button (set_LY (set_LX neutral_report (u8 STICK_MIN)) (u8 STICK_MIN))
      (u16 (Z.lor 0 SWITCH_LCLICK)) ].

(** One call moved the pen by at most one pixel, right, left or down. *)
Definition pen_moved (g g' : Globals) : Prop :=
  (xpos g' = xpos g /\ ypos g' = ypos g) \/
  (xpos g' = xpos g + 1 /\ ypos g' = ypos g) \/
  (xpos g' = xpos g - 1 /\ ypos g' = ypos g) \/
  (xpos g' = xpos g /\ ypos g' = ypos g + 1).

(** Each report three times. *)
Definition tripled (rs : list USB_JoystickReport_Input_t)
  : list USB_JoystickReport_Input_t :=
  flat_map (fun r => [r; r; r]) rs.

End Transport.

(** Three passes of the main loop and a second run of them that differs in
    everything the host sends: a pass with an OUT packet and the IN endpoint
    busy, a pass with the IN endpoint ready, a pass before configuration. *)
Definition out_pass (data : list Z) : Tick :=
  {| configured := true; out_received := true; read_write_allowed := true;
     out_data := data; in_ready := false; JoystickInputData := stale_buffer |}.

Definition in_pass (buffer : USB_JoystickReport_Input_t) : Tick :=
  {| configured := true; out_received := false; read_write_allowed := false;
     out_data := []; in_ready := true; JoystickInputData := buffer |}.

Definition idle_pass : Tick :=
  {| configured := false; out_received := true; read_write_allowed := true;
     out_data := [7]; in_ready := true; JoystickInputData := stale_buffer |}.

Definition sample_ticks : list Tick := [out_pass [1; 2]; in_pass stale_buffer; idle_pass].

Definition quiet_ticks : list Tick :=
  [ {| configured := true; out_received := false; read_write_allowed := false;
       out_data := []; in_ready := false;
       JoystickInputData :=
         {| Button := 0; HAT := 0; LX := 0; LY := 0; RX := 0; RY := 0;
            VendorSpec := 0 |} |};
    in_pass {| Button := 0; HAT := 0; LX := 0; LY := 0; RX := 0; RY := 0;
               VendorSpec := 0 |};
    idle_pass ].

(** ** Basic facts *)

(** Linear arithmetic with the truncating division and remainder of C. *)
Ltac dlia := Z.to_euclidean_division_equations; lia.

(** Case analysis on the comparisons of the goal, dropping the cases the
    context excludes. *)
Ltac zbool :=
  repeat match goal with
  | |- context [?a =? ?b] => destruct (Z.eqb_spec a b); try (exfalso; lia)
  | |- context [?a <? ?b] => destruct (Z.ltb_spec a b); try (exfalso; lia)
  | |- context [?a >? ?b] => destruct (Z.gtb_spec a b); try (exfalso; lia)
  | |- context [?a <=? ?b] => destruct (Z.leb_spec a b); try (exfalso; lia)
  end.

Ltac unfold_setters :=
  cbn [state echoes splat3_lag_correction_count last_report command_count xpos ypos
       set_state set_echoes set_splat3_lag_correction_count set_last_report
       set_command_count set_xpos set_ypos
       Button HAT LX LY RX RY VendorSpec memset0
       set_Button set_HAT set_LX set_LY set_RX set_RY
       andb orb negb fst snd] in *.

(** *** Bits *)

Lemma land_shiftl_1 (b k : Z) :
  0 <= k ->
  Z.land b (Z.shiftl 1 k) = if Z.testbit b k then Z.shiftl 1 k else 0.
Proof.
  intros Hk. apply Z.bits_inj'. intros n Hn.
  rewrite Z.land_spec, Z.shiftl_1_l, Z.pow2_bits_eqb by assumption.
  destruct (Z.eqb_spec k n) as [->|Hne].
  - destruct (Z.testbit b n); cbn [andb].
    + rewrite Z.pow2_bits_true by assumption. reflexivity.
    + rewrite Z.bits_0. reflexivity.
  - rewrite andb_false_r. destruct (Z.testbit b k).
    + rewrite Z.pow2_bits_false by assumption. reflexivity.
    + rewrite Z.bits_0. reflexivity.
Qed.

Lemma land_shiftl_1_nonzero (b k : Z) :
  0 <= k -> (Z.land b (Z.shiftl 1 k) <> 0 <-> Z.testbit b k = true).
Proof.
  intros Hk. rewrite land_shiftl_1 by assumption.
  destruct (Z.testbit b k).
  - rewrite Z.shiftl_1_l. pose proof (Z.pow_pos_nonneg 2 k ltac:(lia) Hk).
    split; [reflexivity | lia].
  - split; [congruence | discriminate].
Qed.

(** *** Arithmetic of the scan and of the bitmap index *)

Lemma rem_2_even (y : Z) :
  0 <= y -> Z.rem y 2 = if Z.even y then 0 else 1.
Proof. intros Hy. rewrite Z.rem_mod_nonneg by lia. apply Zmod_even. Qed.

Lemma even_succ_negb (y : Z) : Z.even (y + 1) = negb (Z.even y).
Proof. rewrite Z.add_1_r, Z.even_succ, <- Z.negb_even. reflexivity. Qed.

Lemma scan_x_range (y c : Z) : 0 <= c -> 0 <= scan_x y c <= 319.
Proof. intros Hc. unfold scan_x. destruct (Z.even y); lia. Qed.

Lemma is_black_index_range (x y : Z) :
  on_canvas x y \/ (x = 0 /\ y = 120) ->
  0 <= is_black_index x y < image_data_size.
Proof. unfold on_canvas, is_black_index, image_data_size. intros H. dlia. Qed.

Lemma u16_mask (m : Z) : button_mask_ok m = true -> u16 (Z.lor 0 m) = m /\ m <> 0.
Proof.
  unfold button_mask_ok, u16. rewrite andb_true_iff, !Z.ltb_lt. intros [H0 H1].
  rewrite Z.lor_0_l, Z.mod_small by lia. lia.
Qed.

(** The setters written out, for equations between states. *)
Ltac expand_setters :=
  unfold set_state, set_echoes, set_splat3_lag_correction_count, set_last_report,
    set_command_count, set_xpos, set_ypos;
  cbn [state echoes splat3_lag_correction_count last_report command_count xpos ypos].

Section Facts.

Context {joystick_h : JoystickH}.
Variable image_data : list Z.

Lemma GetNextReport_buffer (g : Globals) (b b' : USB_JoystickReport_Input_t) :
  GetNextReport image_data g b = GetNextReport image_data g b'.
Proof. reflexivity. Qed.

(** *** The timing macro *)

Lemma ms_2_count_divisor : 8 <= Z.quot (max POLLING_MS 8) 8 * 8.
Proof. unfold max. destruct (Z.gtb_spec POLLING_MS 8); dlia. Qed.

Lemma ms_2_count_range (ms : Z) :
  0 <= ms -> 0 <= ms_2_count ms <= Z.quot ms 16.
Proof.
  intros Hms. unfold ms_2_count, ECHOES.
  pose proof ms_2_count_divisor as Hd.
  set (d := Z.quot (max POLLING_MS 8) 8 * 8) in *.
  rewrite !Z.quot_div_nonneg by dlia.
  split.
  - apply Z.div_pos; [apply Z.div_pos|]; lia.
  - rewrite Z.div_div by lia.
    apply Z.div_le_compat_l; lia.
Qed.

Lemma ms_2_count_mono (a b : Z) :
  0 <= a <= b -> ms_2_count a <= ms_2_count b.
Proof.
  intros Hab. unfold ms_2_count, ECHOES.
  pose proof ms_2_count_divisor as Hd.
  set (d := Z.quot (max POLLING_MS 8) 8 * 8) in *.
  rewrite !Z.quot_div_nonneg by dlia.
  apply Z.div_le_mono; [lia|]. apply Z.div_le_mono; lia.
Qed.

Lemma ms_2_count_2000 : 0 <= ms_2_count 2000 <= ms_2_count 4000.
Proof.
  split; [apply ms_2_count_range | apply ms_2_count_mono]; lia.
Qed.

Lemma ms_2_count_4000 : 0 <= ms_2_count 4000 <= 250.
Proof. pose proof (ms_2_count_range 4000 ltac:(lia)) as H. exact H. Qed.

(** For a polling interval below 1504 ms the two checkpoints of
    [SYNC_POSITION] are different steps. *)
Lemma ms_2_count_checkpoints :
  POLLING_MS < 1504 -> ms_2_count 1500 < ms_2_count 3000.
Proof.
  intros Hp. unfold ms_2_count, ECHOES.
  pose proof ms_2_count_divisor as Hd.
  assert (Hu : Z.quot (max POLLING_MS 8) 8 * 8 <= 1500)
    by (unfold max; destruct (Z.gtb_spec POLLING_MS 8); dlia).
  set (d := Z.quot (max POLLING_MS 8) 8 * 8) in *.
  change (Z.quot 1500 2) with 750. change (Z.quot 3000 2) with 1500.
  rewrite !Z.quot_div_nonneg by lia.
  pose proof (Z.mul_div_le 750 d ltac:(lia)) as Hlow.
  pose proof (Z.div_pos 750 d ltac:(lia) ltac:(lia)) as Hpos.
  apply Z.lt_le_trans with (750 / d + 1); [lia|].
  apply Z.div_le_lower_bound; [lia|].
  destruct (Z.eq_dec (750 / d) 0) as [Hz|Hnz]; [rewrite Hz; lia | nia].
Qed.

(** *** The HAT codes *)

Lemma hat_codes_ok_spec :
  hat_codes_ok = true ->
  (u8 HAT_TOP = HAT_TOP /\ u8 HAT_RIGHT = HAT_RIGHT /\ u8 HAT_BOTTOM = HAT_BOTTOM /\
   u8 HAT_LEFT = HAT_LEFT /\ u8 HAT_CENTER = HAT_CENTER) /\
  (HAT_TOP <> HAT_RIGHT /\ HAT_TOP <> HAT_BOTTOM /\ HAT_TOP <> HAT_LEFT /\
   HAT_TOP <> HAT_CENTER /\ HAT_RIGHT <> HAT_BOTTOM /\ HAT_RIGHT <> HAT_LEFT /\
   HAT_RIGHT <> HAT_CENTER /\ HAT_BOTTOM <> HAT_LEFT /\ HAT_BOTTOM <> HAT_CENTER /\
   HAT_LEFT <> HAT_CENTER).
Proof.
  unfold hat_codes_ok, u8. cbn [forallb].
  rewrite !andb_true_iff, !negb_true_iff, !Z.eqb_neq, !Z.leb_le, !Z.ltb_lt.
  intros H. split.
  - repeat split; apply Z.mod_small; lia.
  - repeat split; lia.
Qed.

Hypothesis hat_ok : hat_codes_ok = true.

(** The position update after a report whose HAT is the centre changes
    nothing. *)
Lemma position_update_center (g : Globals) (r : USB_JoystickReport_Input_t) :
  HAT r = u8 HAT_CENTER -> position_update g r = g.
Proof.
  destruct (hat_codes_ok_spec hat_ok) as [(_ & _ & _ & _ & Hc) Hd].
  intros Hr. unfold position_update. rewrite Hr, Hc.
  destruct (state g); try reflexivity; zbool; solve [reflexivity | lia].
Qed.

(** *** One call, case by case *)

Lemma call_replay (g : Globals) (b : USB_JoystickReport_Input_t) :
  0 < echoes g ->
  GetNextReport image_data g b = Some (set_echoes g (echoes g - 1), last_report g).
Proof.
  intros He. unfold GetNextReport.
  destruct (Z.gtb_spec (echoes g) 0); [reflexivity | lia].
Qed.

Lemma call_done (g : Globals) (b : USB_JoystickReport_Input_t) :
  echoes g <= 0 -> state g = DONE ->
  GetNextReport image_data g b = Some (g, neutral_report).
Proof.
  intros He Hs. unfold GetNextReport.
  destruct (Z.gtb_spec (echoes g) 0); [lia|]. rewrite Hs. reflexivity.
Qed.

Lemma call_fresh (g : Globals) (b : USB_JoystickReport_Input_t) :
  echoes g <= 0 -> state g <> DONE ->
  GetNextReport image_data g b =
  match states_and_moves image_data g neutral_report with
  | None => None
  | Some (g1, r) =>
      Some (set_echoes (set_last_report (position_update g1 r) r) ECHOES, r)
  end.
Proof.
  intros He Hs. unfold GetNextReport.
  destruct (Z.gtb_spec (echoes g) 0); [lia|].
  destruct (state g); try reflexivity. congruence.
Qed.

(** The [MOVE] case of the switch. *)
Lemma move_lag_left (g : Globals) (R : USB_JoystickReport_Input_t) :
  state g = MOVE -> xpos g = 0 -> Z.rem (ypos g) 2 = 1 ->
  splat3_lag_correction_count g < 10 ->
  states_and_moves image_data g R =
  Some (set_state (set_splat3_lag_correction_count g
                     (splat3_lag_correction_count g + 1)) STOP,
        set_HAT R (u8 HAT_LEFT)).
Proof.
  intros Hs Hx Hy Hl. unfold states_and_moves. rewrite Hs, Hx, Hy.
  change ((0 =? 0) && (1 =? 1)) with true. cbn [orb].
  destruct (Z.ltb_spec (splat3_lag_correction_count g) 10); [|lia].
  unfold_setters. rewrite Hx. reflexivity.
Qed.

Lemma move_lag_right (g : Globals) (R : USB_JoystickReport_Input_t) :
  state g = MOVE -> xpos g = 319 -> Z.rem (ypos g) 2 = 0 ->
  splat3_lag_correction_count g < 10 ->
  states_and_moves image_data g R =
  Some (set_state (set_splat3_lag_correction_count g
                     (splat3_lag_correction_count g + 1)) STOP,
        set_HAT R (u8 HAT_RIGHT)).
Proof.
  intros Hs Hx Hy Hl. unfold states_and_moves. rewrite Hs, Hx, Hy.
  change ((319 =? 0) && (0 =? 1) || (319 =? 319) && (0 =? 0)) with true.
  destruct (Z.ltb_spec (splat3_lag_correction_count g) 10); [|lia].
  unfold_setters. rewrite Hx. reflexivity.
Qed.

Lemma move_down (g : Globals) (R : USB_JoystickReport_Input_t) :
  state g = MOVE -> at_boundary (xpos g) (ypos g) ->
  10 <= splat3_lag_correction_count g ->
  states_and_moves image_data g R =
  Some (set_state (set_splat3_lag_correction_count g 0) STOP,
        set_HAT R (u8 HAT_BOTTOM)).
Proof.
  intros Hs Hb Hl. unfold states_and_moves. rewrite Hs.
  replace ((xpos g =? 0) && (Z.rem (ypos g) 2 =? 1)
           || (xpos g =? 319) && (Z.rem (ypos g) 2 =? 0)) with true.
  - destruct (Z.ltb_spec (splat3_lag_correction_count g) 10); [lia|]. reflexivity.
  - destruct Hb as [[-> ->] | [-> ->]]; reflexivity.
Qed.

Lemma move_right (g : Globals) (R : USB_JoystickReport_Input_t) :
  state g = MOVE -> xpos g <> 319 -> Z.rem (ypos g) 2 = 0 ->
  states_and_moves image_data g R =
  Some (set_state g STOP, set_HAT R (u8 HAT_RIGHT)).
Proof.
  intros Hs Hx Hy. unfold states_and_moves. rewrite Hs, Hy.
  rewrite (proj2 (Z.eqb_neq (xpos g) 319) Hx).
  change (0 =? 1) with false. rewrite andb_false_r. reflexivity.
Qed.

Lemma move_left (g : Globals) (R : USB_JoystickReport_Input_t) :
  state g = MOVE -> xpos g <> 0 -> Z.rem (ypos g) 2 <> 0 ->
  states_and_moves image_data g R =
  Some (set_state g STOP, set_HAT R (u8 HAT_LEFT)).
Proof.
  intros Hs Hx Hy. unfold states_and_moves. rewrite Hs.
  rewrite (proj2 (Z.eqb_neq (xpos g) 0) Hx).
  rewrite (proj2 (Z.eqb_neq (Z.rem (ypos g) 2) 0) Hy).
  rewrite andb_false_r. reflexivity.
Qed.

(** The position update, by the HAT of the report. *)
Lemma position_update_right (g : Globals) (r : USB_JoystickReport_Input_t) :
  state g = STOP -> HAT r = u8 HAT_RIGHT ->
  position_update g r = if xpos g <? 319 then set_xpos g (xpos g + 1) else g.
Proof.
  destruct (hat_codes_ok_spec hat_ok) as [(_ & Hr & _) _].
  intros Hs Hh. unfold position_update. rewrite Hs, Hh, Hr, Z.eqb_refl. reflexivity.
Qed.

Lemma position_update_left (g : Globals) (r : USB_JoystickReport_Input_t) :
  state g = STOP -> HAT r = u8 HAT_LEFT ->
  position_update g r = if xpos g >? 0 then set_xpos g (xpos g - 1) else g.
Proof.
  destruct (hat_codes_ok_spec hat_ok) as [(_ & _ & _ & Hl & _) Hd].
  intros Hs Hh. unfold position_update. rewrite Hs, Hh, Hl, Z.eqb_refl.
  rewrite (proj2 (Z.eqb_neq HAT_LEFT HAT_RIGHT)) by lia. reflexivity.
Qed.

Lemma position_update_bottom (g : Globals) (r : USB_JoystickReport_Input_t) :
  state g = STOP -> HAT r = u8 HAT_BOTTOM ->
  position_update g r = set_ypos g (ypos g + 1).
Proof.
  destruct (hat_codes_ok_spec hat_ok) as [(_ & _ & Hb & _) Hd].
  intros Hs Hh. unfold position_update. rewrite Hs, Hh, Hb, Z.eqb_refl.
  rewrite (proj2 (Z.eqb_neq HAT_BOTTOM HAT_RIGHT)) by lia.
  rewrite (proj2 (Z.eqb_neq HAT_BOTTOM HAT_LEFT)) by lia.
  rewrite (proj2 (Z.eqb_neq HAT_BOTTOM HAT_TOP)) by lia. reflexivity.
Qed.

(** The [STOP] case of the switch never touches the HAT. *)
Lemma stop_report (g : Globals) (ink : Z) :
  state g = STOP -> is_black image_data (xpos g) (ypos g) = Some ink ->
  states_and_moves image_data g neutral_report =
  Some (set_state g (if ypos g >? 119 then DONE else MOVE),
        if ink =? 0 then neutral_report
        else set_Button neutral_report (u16 (Z.lor 0 SWITCH_A))).
Proof.
  intros Hs Hi. unfold states_and_moves. rewrite Hs, Hi. unfold_setters.
  destruct (ypos g >? 119); reflexivity.
Qed.

(** *** The invariant *)

Lemma Inv_initial : Inv initial.
Proof.
  pose proof ms_2_count_2000. pose proof ms_2_count_4000.
  unfold Inv, initial, ECHOES; cbn. lia.
Qed.

Lemma Inv_call (g g' : Globals) (b r : USB_JoystickReport_Input_t) :
  Inv g -> GetNextReport image_data g b = Some (g', r) -> Inv g'.
Proof.
  pose proof ms_2_count_2000 as H2. pose proof ms_2_count_4000 as H4.
  unfold Inv, ECHOES, on_canvas, at_boundary. intros (He & Hcc & Hlag & Hst).
  destruct (Z.ltb_spec 0 (echoes g)) as [Hpos|Hzero].
  { rewrite call_replay by assumption. intros [= <- <-]. unfold_setters. unfold ECHOES.
    repeat split; try lia. exact Hst. }
  destruct (state g) eqn:Hs.
  - rewrite call_fresh by congruence. unfold states_and_moves. rewrite Hs.
    destruct (Z.gtb_spec (command_count g) (ms_2_count 2000));
      unfold position_update, ECHOES; unfold_setters; try rewrite Hs;
      intros [= <- <-]; unfold_setters; try rewrite Hs; unfold ECHOES; lia.
  - rewrite call_fresh by congruence. unfold states_and_moves. rewrite Hs.
    destruct (Z.gtb_spec (command_count g) (ms_2_count 4000)).
    + rewrite position_update_center by reflexivity.
      intros [= <- <-]. unfold_setters. unfold ECHOES. lia.
    + unfold position_update, ECHOES; unfold_setters; rewrite Hs.
      intros [= <- <-]; unfold_setters; rewrite Hs; unfold ECHOES; lia.
  - rewrite call_fresh by congruence.
    destruct Hst as (Hc0 & Hxy & Hb).
    assert (Hpar : Z.rem (ypos g) 2 = 0 \/ Z.rem (ypos g) 2 = 1) by dlia.
    assert (Hcases :
      (xpos g = 0 /\ Z.rem (ypos g) 2 = 1) \/
      (xpos g = 319 /\ Z.rem (ypos g) 2 = 0) \/
      (xpos g <> 319 /\ Z.rem (ypos g) 2 = 0) \/
      (xpos g <> 0 /\ Z.rem (ypos g) 2 <> 0)) by lia.
    destruct Hcases as [[Hx Hy] | [[Hx Hy] | [[Hx Hy] | [Hx Hy]]]].
    + destruct (Z.ltb_spec (splat3_lag_correction_count g) 10).
      * rewrite move_lag_left by assumption.
        rewrite position_update_left by reflexivity. unfold_setters.
        destruct (Z.gtb_spec (xpos g) 0); [lia|].
        intros [= <- <-]. unfold_setters. unfold ECHOES. lia.
      * rewrite move_down by (assumption || (unfold at_boundary; lia)).
        rewrite position_update_bottom by reflexivity.
        intros [= <- <-]. unfold_setters. unfold ECHOES. lia.
    + destruct (Z.ltb_spec (splat3_lag_correction_count g) 10).
      * rewrite move_lag_right by assumption.
        rewrite position_update_right by reflexivity. unfold_setters.
        destruct (Z.ltb_spec (xpos g) 319); [lia|].
        intros [= <- <-]. unfold_setters. unfold ECHOES. lia.
      * rewrite move_down by (assumption || (unfold at_boundary; lia)).
        rewrite position_update_bottom by reflexivity.
        intros [= <- <-]. unfold_setters. unfold ECHOES.
        assert (ypos g <> 119) by dlia. lia.
    + rewrite move_right by assumption.
      rewrite position_update_right by reflexivity. unfold_setters.
      destruct (Z.ltb_spec (xpos g) 319); [|lia].
      intros [= <- <-]. unfold_setters. unfold ECHOES. lia.
    + rewrite move_left by assumption.
      rewrite position_update_left by reflexivity. unfold_setters.
      destruct (Z.gtb_spec (xpos g) 0); [|lia].
      intros [= <- <-]. unfold_setters. unfold ECHOES. lia.
  - rewrite call_fresh by congruence.
    destruct (is_black image_data (xpos g) (ypos g)) as [ink|] eqn:Hi.
    2:{ unfold states_and_moves. rewrite Hs, Hi. discriminate. }
    rewrite (stop_report _ _ Hs Hi).
    rewrite position_update_center by (destruct (ink =? 0); reflexivity).
    intros [= <- <-]. unfold_setters. unfold ECHOES.
    destruct (Z.gtb_spec (ypos g) 119); cbv beta iota; lia.
  - rewrite call_done by assumption. intros [= <- <-]. rewrite Hs. lia.
Qed.

(** Every [int] global stays far inside the 16-bit range of the target. *)
Lemma Inv_counters_small (g : Globals) :
  Inv g ->
  0 <= echoes g <= 2 /\ 0 <= command_count g <= 251 /\
  0 <= splat3_lag_correction_count g <= 10 /\
  0 <= xpos g <= 319 /\ 0 <= ypos g <= 120.
Proof.
  pose proof ms_2_count_4000 as H4.
  unfold Inv, ECHOES, on_canvas. intros (He & Hcc & Hlag & Hst).
  destruct (state g); lia.
Qed.

Lemma Inv_reachable (g : Globals) : reachable image_data g -> Inv g.
Proof.
  induction 1 as [|g b g' r _ IH Hcall]; [apply Inv_initial|].
  exact (Inv_call _ _ _ _ IH Hcall).
Qed.

(** *** Reading the bitmap *)

Hypothesis image_ok : Z.of_nat (length image_data) = image_data_size.

Lemma pgm_read_byte_defined (i : Z) :
  0 <= i < image_data_size -> exists v, pgm_read_byte image_data i = Some v.
Proof.
  intros Hi. unfold pgm_read_byte.
  destruct (Z.ltb_spec i 0); [lia|].
  destruct (nth_error image_data (Z.to_nat i)) as [v|] eqn:E; [eauto|].
  apply nth_error_None in E. lia.
Qed.

Lemma is_black_defined (x y : Z) :
  on_canvas x y \/ (x = 0 /\ y = 120) ->
  exists ink, is_black image_data x y = Some ink.
Proof.
  intros H. unfold is_black.
  destruct (pgm_read_byte_defined _ (is_black_index_range x y H)) as [v ->]. eauto.
Qed.

(** From a state of the invariant, a call returns. *)
Lemma call_returns (g : Globals) (b : USB_JoystickReport_Input_t) :
  Inv g -> exists g' r, GetNextReport image_data g b = Some (g', r).
Proof.
  intros (He & Hcc & Hlag & Hst).
  destruct (Z.ltb_spec 0 (echoes g)) as [Hpos|Hzero].
  { rewrite call_replay by assumption. eauto. }
  destruct (state g) eqn:Hs.
  - rewrite call_fresh by congruence. unfold states_and_moves. rewrite Hs.
    destruct (_ >? _); eauto.
  - rewrite call_fresh by congruence. unfold states_and_moves. rewrite Hs.
    destruct (_ >? _); eauto.
  - rewrite call_fresh by congruence. unfold states_and_moves. rewrite Hs.
    destruct (_ || _); [destruct (_ <? _); [destruct (_ =? _)|]|destruct (_ =? _)];
      eauto.
  - rewrite call_fresh by congruence.
    destruct (is_black_defined (xpos g) (ypos g)) as [ink Hi]; [tauto|].
    rewrite (stop_report _ _ Hs Hi). eauto.
  - rewrite call_done by assumption. eauto.
Qed.

(** *** Logical steps *)

Lemma logical_step_fresh (g : Globals) :
  echoes g <= 0 -> state g <> DONE ->
  logical_step image_data g =
  match states_and_moves image_data g neutral_report with
  | None => None
  | Some (g1, r) => Some (set_echoes (set_last_report (position_update g1 r) r) 0, r)
  end.
Proof.
  intros He Hs. unfold logical_step. rewrite call_fresh by assumption.
  destruct (states_and_moves image_data g neutral_report) as [[g1 r]|]; [|reflexivity].
  rewrite call_replay by (cbn [echoes set_echoes]; unfold ECHOES; lia).
  rewrite call_replay by (cbn [echoes set_echoes]; unfold ECHOES; lia).
  reflexivity.
Qed.

Lemma leads_to_refl (g : Globals) : leads_to image_data 0 g g.
Proof. exists []. reflexivity. Qed.

Lemma leads_to_step (n : nat) (g g1 g2 : Globals) (r : USB_JoystickReport_Input_t) :
  logical_step image_data g = Some (g1, r) ->
  leads_to image_data n g1 g2 -> leads_to image_data (S n) g g2.
Proof.
  intros Hstep [rs Hrs]. exists (r :: rs). cbn [steps]. rewrite Hstep, Hrs. reflexivity.
Qed.

Lemma leads_to_trans (n m : nat) (g1 g2 g3 : Globals) :
  leads_to image_data n g1 g2 -> leads_to image_data m g2 g3 ->
  leads_to image_data (n + m) g1 g3.
Proof.
  revert g1. induction n as [|n IH]; intros g1 [rs Hrs] H23.
  - cbn in Hrs. injection Hrs as <- _. exact H23.
  - cbn [steps] in Hrs.
    destruct (logical_step image_data g1) as [[ga r]|] eqn:Hstep; [|discriminate].
    destruct (steps image_data n ga) as [[gb rs']|] eqn:Hn; [|discriminate].
    injection Hrs as <- _.
    apply (leads_to_step _ _ _ _ _ Hstep). apply IH; [eexists; eassumption | exact H23].
Qed.

Lemma leads_to_snoc (n : nat) (g g1 g2 : Globals) (r : USB_JoystickReport_Input_t) :
  leads_to image_data n g g1 ->
  logical_step image_data g1 = Some (g2, r) -> leads_to image_data (S n) g g2.
Proof.
  intros H1 H2. replace (S n) with (n + 1)%nat by lia.
  apply (leads_to_trans _ _ _ _ _ H1). apply (leads_to_step _ _ _ _ _ H2), leads_to_refl.
Qed.

Lemma logical_step_reachable (g g' : Globals) (r : USB_JoystickReport_Input_t) :
  reachable image_data g -> logical_step image_data g = Some (g', r) ->
  reachable image_data g'.
Proof.
  intros Hg. unfold logical_step.
  destruct (GetNextReport image_data g blank) as [[g1 r1]|] eqn:H1; [|discriminate].
  destruct (GetNextReport image_data g1 blank) as [[g2 r2]|] eqn:H2; [|discriminate].
  destruct (GetNextReport image_data g2 blank) as [[g3 r3]|] eqn:H3; [|discriminate].
  intros [= <- _]. eauto using reachable.
Qed.

Lemma leads_to_reachable (n : nat) (g g' : Globals) :
  reachable image_data g -> leads_to image_data n g g' -> reachable image_data g'.
Proof.
  revert g. induction n as [|n IH]; intros g Hg [rs Hrs]; cbn [steps] in Hrs.
  - injection Hrs as <- _. exact Hg.
  - destruct (logical_step image_data g) as [[ga r]|] eqn:Hstep; [|discriminate].
    destruct (steps image_data n ga) as [[gb rs']|] eqn:Hn; [|discriminate].
    injection Hrs as <- _.
    apply (IH ga); [eapply logical_step_reachable; eassumption | eexists; eassumption].
Qed.

(** *** The synchronisation phases, step by step *)

Lemma controller_step (k : Z) :
  0 <= k <= ms_2_count 2000 ->
  logical_step image_data (controller_state k)
  = Some (controller_state (k + 1), neutral_report).
Proof.
  intros Hk. rewrite logical_step_fresh by (cbn; (lia || discriminate)).
  unfold states_and_moves. cbn [state controller_state command_count].
  destruct (Z.gtb_spec k (ms_2_count 2000)); [lia|].
  unfold controller_state, position_update. unfold_setters.
  rewrite (proj2 (Z.eqb_neq (k + 1) 0)) by lia. reflexivity.
Qed.

Lemma controller_exit :
  logical_step image_data (controller_state (ms_2_count 2000 + 1))
  = Some (position_state 0, neutral_report).
Proof.
  rewrite logical_step_fresh by (cbn; (lia || discriminate)).
  unfold states_and_moves. cbn [state controller_state command_count].
  destruct (Z.gtb_spec (ms_2_count 2000 + 1) (ms_2_count 2000)); [|lia].
  reflexivity.
Qed.

Lemma position_step (k : Z) :
  0 <= k <= ms_2_count 4000 ->
  logical_step image_data (position_state k)
  = Some (position_state (k + 1), sync_report k).
Proof.
  intros Hk. rewrite logical_step_fresh by (cbn; (lia || discriminate)).
  unfold states_and_moves. cbn [state position_state command_count].
  destruct (Z.gtb_spec k (ms_2_count 4000)); [lia|].
  unfold position_state, position_update, sync_report. unfold_setters.
  rewrite (proj2 (Z.eqb_neq (k + 1) 0)) by lia.
  replace (k + 1 - 1) with k by lia. reflexivity.
Qed.

Lemma position_exit :
  logical_step image_data (position_state (ms_2_count 4000 + 1))
  = Some (stop_state 0 0, neutral_report).
Proof.
  rewrite logical_step_fresh by (cbn; (lia || discriminate)).
  unfold states_and_moves. cbn [state position_state command_count].
  destruct (Z.gtb_spec (ms_2_count 4000 + 1) (ms_2_count 4000)); [|lia].
  rewrite position_update_center by reflexivity. reflexivity.
Qed.

Lemma controller_run (n : nat) :
  Z.of_nat n <= ms_2_count 2000 + 1 ->
  leads_to image_data n initial (controller_state (Z.of_nat n)).
Proof.
  induction n as [|n IH]; intros Hn.
  - apply leads_to_refl.
  - apply leads_to_snoc with (g1 := controller_state (Z.of_nat n))
                             (r := neutral_report); [apply IH; lia|].
    rewrite controller_step by lia. do 3 f_equal. lia.
Qed.

Lemma position_run (n : nat) :
  Z.of_nat n <= ms_2_count 4000 + 1 ->
  leads_to image_data (Z.to_nat (ms_2_count 2000 + 2) + n) initial
    (position_state (Z.of_nat n)).
Proof.
  pose proof ms_2_count_2000 as H2.
  induction n as [|n IH]; intros Hn.
  - rewrite Nat.add_0_r.
    replace (Z.to_nat (ms_2_count 2000 + 2))
      with (S (Z.to_nat (ms_2_count 2000 + 1))) by lia.
    apply leads_to_snoc with (g1 := controller_state (ms_2_count 2000 + 1))
                             (r := neutral_report); [|apply controller_exit].
    replace (ms_2_count 2000 + 1) with (Z.of_nat (Z.to_nat (ms_2_count 2000 + 1)))
      at 2 by lia.
    apply controller_run. lia.
  - rewrite Nat.add_succ_r.
    apply leads_to_snoc with (g1 := position_state (Z.of_nat n))
                             (r := sync_report (Z.of_nat n)); [apply IH; lia|].
    rewrite position_step by lia. do 3 f_equal. lia.
Qed.

Lemma draw_start_run :
  leads_to image_data (Z.to_nat draw_start) initial (stop_state 0 0).
Proof.
  pose proof ms_2_count_2000 as H2. pose proof ms_2_count_4000 as H4.
  replace (Z.to_nat draw_start)
    with (S (Z.to_nat (ms_2_count 2000 + 2) + Z.to_nat (ms_2_count 4000 + 1)))
    by (unfold draw_start; lia).
  apply leads_to_snoc with (g1 := position_state (ms_2_count 4000 + 1))
                           (r := neutral_report); [|apply position_exit].
  replace (ms_2_count 4000 + 1) with (Z.of_nat (Z.to_nat (ms_2_count 4000 + 1)))
    at 2 by lia.
  apply position_run. lia.
Qed.

(** *** The scan, step by step *)

Lemma stop_step (y c : Z) :
  0 <= y < 120 -> 0 <= c < 330 ->
  logical_step image_data (stop_state y c)
  = Some (move_state image_data y c, ink_report image_data (scan_x y c) y).
Proof.
  intros Hy Hc. pose proof (scan_x_range y c ltac:(lia)) as Hx.
  rewrite logical_step_fresh by (cbn; (lia || discriminate)).
  destruct (is_black_defined (scan_x y c) y) as [ink Hi];
    [left; unfold on_canvas; lia|].
  rewrite (stop_report (stop_state y c) ink eq_refl Hi).
  rewrite position_update_center by (destruct (ink =? 0); reflexivity).
  unfold move_state, ink_report. rewrite Hi. cbn [ypos stop_state].
  destruct (Z.gtb_spec y 119); [lia|]. reflexivity.
Qed.

Lemma final_stop_step :
  logical_step image_data (stop_state 120 0)
  = Some (done_state image_data, ink_report image_data 0 120).
Proof.
  rewrite logical_step_fresh by (cbn; (lia || discriminate)).
  destruct (is_black_defined 0 120) as [ink Hi]; [right; lia|].
  rewrite (stop_report (stop_state 120 0) ink eq_refl Hi).
  unfold position_update, done_state, ink_report. rewrite Hi. reflexivity.
Qed.

Local Ltac side :=
  cbn [state xpos ypos splat3_lag_correction_count];
  first [reflexivity | assumption | lia].

Lemma move_step (y c : Z) :
  0 <= y < 120 -> 0 <= c < 329 ->
  logical_step image_data (move_state image_data y c)
  = Some (stop_state y (c + 1), hat_report (scan_dir y)).
Proof.
  intros Hy Hc. pose proof (rem_2_even y ltac:(lia)) as Hrem.
  rewrite logical_step_fresh by (cbn; (lia || discriminate)).
  unfold stop_state, move_state, arrival_report.
  rewrite (proj2 (Z.eqb_neq (c + 1) 0)) by lia.
  unfold scan_dir, scan_x, scan_lag in *.
  destruct (Z.even y); destruct (Z.lt_ge_cases c 319) as [Hlt|Hge].
  - rewrite move_right by side.
    rewrite position_update_right by reflexivity. unfold_setters.
    destruct (Z.ltb_spec (Z.min c 319) 319); [|lia].
    expand_setters. do 3 f_equal; lia.
  - rewrite move_lag_right by side.
    rewrite position_update_right by reflexivity. unfold_setters.
    destruct (Z.ltb_spec (Z.min c 319) 319); [lia|].
    expand_setters. do 3 f_equal; lia.
  - rewrite move_left by side.
    rewrite position_update_left by reflexivity. unfold_setters.
    destruct (Z.gtb_spec (319 - Z.min c 319) 0); [|lia].
    expand_setters. do 3 f_equal; lia.
  - rewrite move_lag_left by side.
    rewrite position_update_left by reflexivity. unfold_setters.
    destruct (Z.gtb_spec (319 - Z.min c 319) 0); [lia|].
    expand_setters. do 3 f_equal; lia.
Qed.

Lemma move_step_down (y : Z) :
  0 <= y < 120 ->
  logical_step image_data (move_state image_data y 329)
  = Some (stop_state (y + 1) 0, hat_report HAT_BOTTOM).
Proof.
  intros Hy. pose proof (rem_2_even y ltac:(lia)) as Hrem.
  rewrite logical_step_fresh by (cbn; (lia || discriminate)).
  rewrite move_down.
  - rewrite position_update_bottom by reflexivity.
    unfold stop_state, move_state, arrival_report, scan_x, scan_lag.
    rewrite even_succ_negb. unfold_setters.
    rewrite (proj2 (Z.eqb_neq (y + 1) 0)) by lia.
    destruct (Z.even y); reflexivity.
  - reflexivity.
  - unfold at_boundary, move_state, scan_x. unfold_setters.
    destruct (Z.even y); [right | left]; split; (reflexivity || assumption).
  - cbn. lia.
Qed.

(** *** The scan as a whole *)

Lemma scan_run (n : nat) :
  Z.of_nat n <= 39600 ->
  leads_to image_data (Z.to_nat draw_start + 2 * n) initial
    (stop_state (Z.of_nat n / 330) (Z.of_nat n mod 330)).
Proof.
  induction n as [|n IH]; intros Hn.
  - rewrite Nat.add_0_r. apply draw_start_run.
  - specialize (IH ltac:(lia)).
    set (q := Z.of_nat n) in *.
    assert (Hq : 0 <= q < 39600) by lia.
    assert (Hy : 0 <= q / 330 < 120) by (clear IH; dlia).
    assert (Hc : 0 <= q mod 330 < 330) by (apply Z.mod_pos_bound; lia).
    replace (Z.to_nat draw_start + 2 * S n)%nat
      with (S (S (Z.to_nat draw_start + 2 * n))) by lia.
    replace (Z.of_nat (S n)) with (q + 1) by lia.
    destruct (Z.eq_dec (q mod 330) 329) as [Heq|Hne];
      (eapply leads_to_snoc; [eapply leads_to_snoc; [exact IH | apply stop_step; lia]|]).
    + rewrite Heq, move_step_down by lia.
      replace ((q + 1) / 330) with (q / 330 + 1) by (clear IH; dlia).
      replace ((q + 1) mod 330) with 0 by (clear IH; dlia).
      reflexivity.
    + rewrite move_step by lia.
      replace ((q + 1) / 330) with (q / 330) by (clear IH; dlia).
      replace ((q + 1) mod 330) with (q mod 330 + 1) by (clear IH; dlia).
      reflexivity.
Qed.

Lemma stop_reached (y c : Z) :
  0 <= y < 120 -> 0 <= c < 330 ->
  leads_to image_data (Z.to_nat (draw_start + 2 * (330 * y + c))) initial
    (stop_state y c).
Proof.
  intros Hy Hc. pose proof ms_2_count_2000 as H2. pose proof ms_2_count_4000 as H4.
  pose proof (scan_run (Z.to_nat (330 * y + c)) ltac:(lia)) as H.
  rewrite Z2Nat.id in H by lia.
  replace ((330 * y + c) / 330) with y in H by dlia.
  replace ((330 * y + c) mod 330) with c in H by dlia.
  replace (Z.to_nat (draw_start + 2 * (330 * y + c)))
    with (Z.to_nat draw_start + 2 * Z.to_nat (330 * y + c))%nat
    by (unfold draw_start; lia).
  exact H.
Qed.

Lemma move_reached (y c : Z) :
  0 <= y < 120 -> 0 <= c < 330 ->
  leads_to image_data (Z.to_nat (draw_start + 2 * (330 * y + c) + 1)) initial
    (move_state image_data y c).
Proof.
  intros Hy Hc. pose proof ms_2_count_2000 as H2. pose proof ms_2_count_4000 as H4.
  replace (Z.to_nat (draw_start + 2 * (330 * y + c) + 1))
    with (S (Z.to_nat (draw_start + 2 * (330 * y + c))))
    by (unfold draw_start; lia).
  eapply leads_to_snoc; [apply stop_reached; assumption | apply stop_step; assumption].
Qed.

Lemma final_stop_reached :
  leads_to image_data (Z.to_nat (draw_start + 79200)) initial (stop_state 120 0).
Proof.
  pose proof ms_2_count_2000 as H2. pose proof ms_2_count_4000 as H4.
  pose proof (scan_run (Z.to_nat 39600) ltac:(lia)) as H.
  rewrite Z2Nat.id in H by lia.
  replace (Z.to_nat (draw_start + 79200))
    with (Z.to_nat draw_start + 2 * Z.to_nat 39600)%nat by (unfold draw_start; lia).
  exact H.
Qed.

Lemma done_reached :
  leads_to image_data (Z.to_nat (draw_start + 79201)) initial (done_state image_data).
Proof.
  pose proof ms_2_count_2000 as H2. pose proof ms_2_count_4000 as H4.
  replace (Z.to_nat (draw_start + 79201))
    with (S (Z.to_nat (draw_start + 79200))) by (unfold draw_start; lia).
  eapply leads_to_snoc; [apply final_stop_reached | apply final_stop_step].
Qed.

Lemma position_phase (n : nat) :
  Z.of_nat n <= ms_2_count 4000 + 1 ->
  leads_to image_data n (position_state 0) (position_state (Z.of_nat n)).
Proof.
  induction n as [|n IH]; intros Hn.
  - apply leads_to_refl.
  - apply leads_to_snoc with (g1 := position_state (Z.of_nat n))
                             (r := sync_report (Z.of_nat n)); [apply IH; lia|].
    rewrite position_step by lia. do 3 f_equal. lia.
Qed.

(** *** After [DONE] *)

Lemma done_polls (bufs : list USB_JoystickReport_Input_t) (g : Globals) :
  state g = DONE ->
  exists g' rs,
    polls image_data bufs g = Some (g', rs) /\ state g' = DONE /\
    xpos g' = xpos g /\ ypos g' = ypos g /\
    command_count g' = command_count g /\
    splat3_lag_correction_count g' = splat3_lag_correction_count g.
Proof.
  revert g. induction bufs as [|b bufs IH]; intros g Hs.
  - exists g, []. repeat split; (reflexivity || assumption).
  - cbn [polls]. destruct (Z.ltb_spec 0 (echoes g)) as [Hpos|Hzero].
    + rewrite call_replay by assumption.
      destruct (IH (set_echoes g (echoes g - 1)) Hs) as (g' & rs & -> & H).
      exists g', (last_report g :: rs). split; [reflexivity | exact H].
    + rewrite call_done by assumption.
      destruct (IH g Hs) as (g' & rs & -> & H).
      exists g', (neutral_report :: rs). split; [reflexivity | exact H].
Qed.

(** *** Buttons *)

Lemma asserted_neutral (m : Z) : ~ asserted m neutral_report.
Proof. unfold asserted. cbn [Button neutral_report]. rewrite Z.land_0_l. tauto. Qed.

Lemma asserted_ink_report (x y ink : Z) :
  button_mask_ok SWITCH_A = true ->
  is_black image_data x y = Some ink ->
  (asserted SWITCH_A (ink_report image_data x y) <-> ink <> 0).
Proof.
  intros Hm Hi. destruct (u16_mask _ Hm) as [Hu Hnz].
  unfold ink_report, asserted. rewrite Hi.
  destruct (Z.eqb_spec ink 0) as [->|Hne].
  - cbn [Button neutral_report]. rewrite Z.land_0_l. tauto.
  - cbn [Button set_Button]. rewrite Hu, Z.land_diag. tauto.
Qed.

Lemma asserted_sync_report (k : Z) :
  button_mask_ok SWITCH_LCLICK = true ->
  (asserted SWITCH_LCLICK (sync_report k)
   <-> k = ms_2_count 1500 \/ k = ms_2_count 3000).
Proof.
  intros Hm. destruct (u16_mask _ Hm) as [Hu Hnz].
  unfold sync_report, asserted.
  destruct (Z.eqb_spec k (ms_2_count 1500)); destruct (Z.eqb_spec k (ms_2_count 3000));
    cbn [orb Button set_Button set_LX set_LY neutral_report];
    rewrite ?Hu, ?Z.land_diag, ?Z.land_0_l; intuition congruence.
Qed.

End Facts.

(** ** The properties of the spec *)

Section Properties.

Context {joystick_h : JoystickH}.
Variable image_data : list Z.

(** C8.  For every pixel [(x, y)] of the canvas, [0 <= x <= 319] and
    [0 <= y <= 119], the bitmap holds a byte at index [x / 8 + y * 40], the
    query [is_black x y] returns, and its value is true (non-zero) exactly
    when bit [x mod 8] of that byte is 1. *)
Theorem C8_is_black_reads_the_bit (x y : Z) :
  Z.of_nat (length image_data) = image_data_size ->
  0 <= x <= 319 -> 0 <= y <= 119 ->
  exists byte ink,
    nth_error image_data (Z.to_nat (x / 8 + y * 40)) = Some byte /\
    is_black image_data x y = Some ink /\
    (ink <> 0 <-> Z.testbit byte (x mod 8) = true).
Proof.
  intros Hlen Hx Hy.
  assert (Hidx : is_black_index x y = x / 8 + y * 40)
    by (unfold is_black_index; rewrite Z.quot_div_nonneg by lia; reflexivity).
  pose proof (is_black_index_range x y (or_introl (conj Hx Hy))) as Hr.
  destruct (pgm_read_byte_defined image_data Hlen _ Hr) as [byte Hbyte].
  exists byte, (Z.land byte (Z.shiftl 1 (Z.rem x 8))).
  unfold is_black. rewrite Hbyte. unfold pgm_read_byte in Hbyte.
  destruct (Z.ltb_spec (is_black_index x y) 0); [lia|].
  rewrite <- Hidx. repeat split; try assumption.
  - rewrite Z.rem_mod_nonneg by lia.
    apply land_shiftl_1_nonzero. apply Z.mod_pos_bound. lia.
  - rewrite Z.rem_mod_nonneg by lia.
    apply land_shiftl_1_nonzero. apply Z.mod_pos_bound. lia.
Qed.

(** C4.  A call made in phase [STOP] with no echo pending, at a cursor
    position whose byte lies inside the bitmap, returns a report in which the
    button bit [SWITCH_A] is asserted if and only if [is_black] is true at the
    cursor position the call found. *)
Theorem C4_ink_iff_is_black (g : Globals) (b : USB_JoystickReport_Input_t) :
  button_mask_ok SWITCH_A = true ->
  echoes g <= 0 -> state g = STOP ->
  0 <= is_black_index (xpos g) (ypos g) < Z.of_nat (length image_data) ->
  exists ink g' r,
    is_black image_data (xpos g) (ypos g) = Some ink /\
    GetNextReport image_data g b = Some (g', r) /\
    (asserted SWITCH_A r <-> ink <> 0).
Proof.
  intros Hm He Hs Hidx.
  assert (Hread : exists v, pgm_read_byte image_data
                              (is_black_index (xpos g) (ypos g)) = Some v).
  { unfold pgm_read_byte.
    destruct (Z.ltb_spec (is_black_index (xpos g) (ypos g)) 0); [lia|].
    destruct (nth_error image_data _) as [v|] eqn:E; [eauto|].
    apply nth_error_None in E. lia. }
  destruct Hread as [v Hv].
  assert (Hi : is_black image_data (xpos g) (ypos g)
               = Some (Z.land v (Z.shiftl 1 (Z.rem (xpos g) 8))))
    by (unfold is_black; rewrite Hv; reflexivity).
  set (ink := Z.land v (Z.shiftl 1 (Z.rem (xpos g) 8))) in *.
  rewrite call_fresh by congruence.
  rewrite (stop_report image_data g ink Hs Hi).
  exists ink. eexists. eexists. split; [exact Hi|]. split; [reflexivity|].
  pose proof (asserted_ink_report image_data (xpos g) (ypos g) ink Hm Hi) as Ha.
  unfold ink_report in Ha. rewrite Hi in Ha. exact Ha.
Qed.

(** C9, as the code has it.  A call made in phase [DONE] with no echo pending
    returns the neutral report (sticks and HAT centred, no button), whatever
    the buffer held; it changes no global and caches nothing. *)
Theorem C9_done_returns_neutral (g : Globals) (b : USB_JoystickReport_Input_t) :
  echoes g <= 0 -> state g = DONE ->
  GetNextReport image_data g b = Some (g, neutral_report).
Proof. intros He Hs. apply call_done; assumption. Qed.

(** C5, as the code has it.  The report a call synthesizes while the phase
    is not [DONE] is followed by exactly [ECHOES] replay calls that return
    the same report and change nothing but the echo counter, after which the
    next call synthesizes again.  In phase [DONE] a call returns the neutral
    report and leaves every global, echo counter included, as it was. *)
Theorem C5_echo_law_before_done (g : Globals) :
  echoes g <= 0 ->
  (state g <> DONE ->
   echo_law image_data g /\
   forall b g1 r, GetNextReport image_data g b = Some (g1, r) ->
                  echoes g1 = ECHOES /\ last_report g1 = r) /\
  (state g = DONE ->
   forall b, GetNextReport image_data g b = Some (g, neutral_report)).
Proof.
  intros He. split.
  - intros Hs.
    assert (Hfresh : forall b g1 r, GetNextReport image_data g b = Some (g1, r) ->
                                    echoes g1 = ECHOES /\ last_report g1 = r).
    { intros b g1 r. rewrite call_fresh by assumption.
      destruct (states_and_moves image_data g neutral_report) as [[g0 r0]|];
        [|discriminate].
      intros [= <- <-]. split; reflexivity. }
    split; [|exact Hfresh].
    intros b g1 r Hcall. destruct (Hfresh b g1 r Hcall) as [He1 Hl1].
    unfold ECHOES in He1. split; [lia|]. intros b2 b3.
    exists (set_echoes g1 1), (set_echoes g1 0).
    rewrite call_replay by lia. rewrite He1, Hl1.
    rewrite call_replay by (cbn [echoes set_echoes]; lia).
    unfold same_but_echoes. cbn [echoes set_echoes last_report]. rewrite Hl1.
    repeat split; try reflexivity; lia.
  - intros Hs b. apply call_done; assumption.
Qed.

(** C6.  When the call of phase [STOP] is made with the cursor row above
    119, the phase becomes [DONE]; from then on every call, however many
    follow, finds and leaves the phase [DONE] and the cursor where it was. *)
Theorem C6_done_is_absorbing (g : Globals) (b : USB_JoystickReport_Input_t) :
  hat_codes_ok = true ->
  Z.of_nat (length image_data) = image_data_size ->
  reachable image_data g ->
  echoes g <= 0 -> state g = STOP -> 119 < ypos g ->
  exists g1 r1,
    GetNextReport image_data g b = Some (g1, r1) /\
    state g1 = DONE /\ xpos g1 = xpos g /\ ypos g1 = ypos g /\
    forall bufs, exists g2 rs,
      polls image_data bufs g1 = Some (g2, rs) /\
      state g2 = DONE /\ xpos g2 = xpos g /\ ypos g2 = ypos g.
Proof.
  intros Hhat Hlen Hreach He Hs Hy.
  pose proof (Inv_reachable image_data Hhat g Hreach) as (_ & _ & _ & Hst).
  rewrite Hs in Hst. destruct Hst as (_ & [[[_ Hc] _] | (Hx0 & Hy0 & _)]); [lia|].
  destruct (is_black_defined image_data Hlen (xpos g) (ypos g)) as [ink Hi];
    [right; lia|].
  rewrite call_fresh by congruence.
  rewrite (stop_report image_data g ink Hs Hi).
  destruct (Z.gtb_spec (ypos g) 119); [|lia].
  eexists. eexists. split; [reflexivity|].
  unfold position_update. cbn [state set_state set_echoes set_last_report xpos ypos].
  repeat split.
  intros bufs.
  destruct (done_polls image_data bufs
              (set_echoes (set_last_report (set_state g DONE)
                 (if ink =? 0 then neutral_report
                  else set_Button neutral_report (u16 (Z.lor 0 SWITCH_A)))) ECHOES)
              eq_refl) as (g2 & rs & Hp & Hd & Hx2 & Hy2 & _).
  exists g2, rs. repeat split; assumption.
Qed.

(** C1, as the code has it.  In every state reachable from [initial] (before
    and after every call) the cursor satisfies [0 <= x <= 319] and
    [0 <= y <= 120]; the row 120 is only held at column 0, in phase [STOP] or
    [DONE]; and a call that queries the bitmap does it at a coordinate of the
    canvas or at [(0, 120)]. *)
Theorem C1_cursor_stays_in_range (g : Globals) :
  hat_codes_ok = true ->
  reachable image_data g ->
  0 <= xpos g <= 319 /\ 0 <= ypos g <= 120 /\
  (ypos g = 120 -> xpos g = 0 /\ (state g = STOP \/ state g = DONE)) /\
  (queries_bitmap g ->
   on_canvas (xpos g) (ypos g) \/ (xpos g = 0 /\ ypos g = 120)).
Proof.
  intros Hhat Hreach.
  pose proof (Inv_reachable image_data Hhat g Hreach) as (_ & _ & _ & Hst).
  unfold queries_bitmap, on_canvas in *.
  destruct (state g); repeat split; try lia; try tauto; try (intros [_ ?]; discriminate).
Qed.

(** C10.  From every reachable state a call returns without reading outside
    [image_data]; when the call queries the bitmap, the byte index
    [x / 8 + y * 40] lies between 0 and 4800, inside the 0x12c1 bytes of the
    array, the row is at most 120, and a query at row 120 is made at column 0
    by the call that enters [DONE].  That query is reached: the scan leaves
    the odd row 119 at column 0. *)
Theorem C10_bitmap_reads_in_bounds (g : Globals) (b : USB_JoystickReport_Input_t) :
  hat_codes_ok = true ->
  Z.of_nat (length image_data) = image_data_size ->
  reachable image_data g ->
  (exists g' r, GetNextReport image_data g b = Some (g', r)) /\
  (queries_bitmap g ->
   0 <= is_black_index (xpos g) (ypos g) <= 4800 /\
   is_black_index (xpos g) (ypos g) < image_data_size /\
   (exists byte,
      pgm_read_byte image_data (is_black_index (xpos g) (ypos g)) = Some byte) /\
   ypos g <= 120 /\
   (ypos g = 120 ->
    xpos g = 0 /\
    exists g' r, GetNextReport image_data g b = Some (g', r) /\ state g' = DONE)) /\
  (exists g120, reachable image_data g120 /\ queries_bitmap g120 /\
                xpos g120 = 0 /\ ypos g120 = 120 /\
                is_black_index (xpos g120) (ypos g120) = 4800).
Proof.
  intros Hhat Hlen Hreach.
  pose proof (Inv_reachable image_data Hhat g Hreach) as HInv.
  split; [apply call_returns; assumption|]. split.
  - intros [He Hs]. destruct HInv as (_ & _ & _ & Hst). rewrite Hs in Hst.
    destruct Hst as [_ Hpos].
    assert (Hwhere : on_canvas (xpos g) (ypos g) \/ (xpos g = 0 /\ ypos g = 120))
      by tauto.
    pose proof (is_black_index_range _ _ Hwhere) as Hr.
    unfold image_data_size in Hr.
    split; [lia|]. split; [unfold image_data_size; lia|].
    split; [apply pgm_read_byte_defined; assumption|].
    split; [unfold on_canvas in Hwhere; lia|].
    intros Hy. split; [unfold on_canvas in Hwhere; lia|].
    destruct (is_black_defined image_data Hlen _ _ Hwhere) as [ink Hi].
    rewrite call_fresh by (lia || congruence).
    rewrite (stop_report image_data g ink Hs Hi).
    destruct (Z.gtb_spec (ypos g) 119); [|lia].
    eexists. eexists. split; reflexivity.
  - exists (stop_state 120 0). split.
    + eapply leads_to_reachable; [apply reach_initial|].
      apply final_stop_reached; assumption.
    + repeat split; reflexivity.
Qed.

(** C2.  In each of the 120 rows [y], the [MOVE] step number [c]
    ([c = 0..328]) is taken at column [c] on an even row and [319 - c] on an
    odd row (the boundary column once it is reached) and reports the
    direction right on an even row and left on an odd row, moving the cursor
    one column that way up to the boundary: even rows are scanned with
    direction right through [x = 0..319], odd rows with direction left
    through [x = 319..0].  Steps [319..328] are the lag-correction window;
    the one remaining [MOVE] step of the row is the row advance of C3. *)
Theorem C2_row_parity_sets_direction (y c : Z) :
  hat_codes_ok = true ->
  Z.of_nat (length image_data) = image_data_size ->
  0 <= y < 120 -> 0 <= c < 329 ->
  exists g g' r,
    leads_to image_data (Z.to_nat (draw_start + 2 * (330 * y + c) + 1)) initial g /\
    state g = MOVE /\ echoes g = 0 /\ ypos g = y /\
    xpos g = (if Z.even y then Z.min c 319 else 319 - Z.min c 319) /\
    logical_step image_data g = Some (g', r) /\
    HAT r = (if Z.even y then HAT_RIGHT else HAT_LEFT) /\
    state g' = STOP /\ ypos g' = y /\
    xpos g' = (if Z.even y then Z.min (c + 1) 319 else 319 - Z.min (c + 1) 319).
Proof.
  intros Hhat Hlen Hy Hc.
  destruct (hat_codes_ok_spec Hhat) as [(_ & Hr & _ & Hl & _) _].
  exists (move_state image_data y c), (stop_state y (c + 1)), (hat_report (scan_dir y)).
  split; [apply move_reached; (assumption || lia)|].
  rewrite move_step by assumption.
  unfold scan_dir, hat_report. cbn [HAT set_HAT].
  repeat split; destruct (Z.even y); assumption.
Qed.

(** C3.  In each row [y] the cursor arrives at the boundary column with the
    lag counter at 0; the next 10 [MOVE] steps, taken at the boundary with
    the counter at [i = 0..9], repeat the horizontal direction of the row,
    leave the cursor in place and count to [i + 1]; the [MOVE] step after
    them, taken with the counter at 10, reports the direction down, advances
    the row by one and leaves the counter at 0. *)
Theorem C3_lag_correction_window (y i : Z) :
  hat_codes_ok = true ->
  Z.of_nat (length image_data) = image_data_size ->
  0 <= y < 120 -> 0 <= i < 10 ->
  (exists g g' r,
     leads_to image_data (Z.to_nat (draw_start + 2 * (330 * y + 318) + 1)) initial g /\
     state g = MOVE /\ ypos g = y /\ ~ at_boundary (xpos g) (ypos g) /\
     logical_step image_data g = Some (g', r) /\
     xpos g' = edge_column y /\ ypos g' = y /\ at_boundary (xpos g') (ypos g') /\
     splat3_lag_correction_count g' = 0) /\
  (exists g g' r,
     leads_to image_data
       (Z.to_nat (draw_start + 2 * (330 * y + (319 + i)) + 1)) initial g /\
     state g = MOVE /\ xpos g = edge_column y /\ ypos g = y /\
     at_boundary (xpos g) (ypos g) /\ splat3_lag_correction_count g = i /\
     logical_step image_data g = Some (g', r) /\
     HAT r = scan_dir y /\
     state g' = STOP /\ xpos g' = edge_column y /\ ypos g' = y /\
     splat3_lag_correction_count g' = i + 1) /\
  (exists g g' r,
     leads_to image_data (Z.to_nat (draw_start + 2 * (330 * y + 329) + 1)) initial g /\
     state g = MOVE /\ xpos g = edge_column y /\ ypos g = y /\
     splat3_lag_correction_count g = 10 /\
     logical_step image_data g = Some (g', r) /\
     HAT r = HAT_BOTTOM /\
     state g' = STOP /\ xpos g' = edge_column y /\ ypos g' = y + 1 /\
     splat3_lag_correction_count g' = 0).
Proof.
  intros Hhat Hlen Hy Hi.
  destruct (hat_codes_ok_spec Hhat) as [(_ & Hr & Hb & Hl & _) _].
  pose proof (rem_2_even y ltac:(lia)) as Hrem.
  split; [|split].
  - exists (move_state image_data y 318), (stop_state y (318 + 1)),
      (hat_report (scan_dir y)).
    split; [apply move_reached; (assumption || lia)|].
    rewrite move_step by (assumption || lia).
    unfold at_boundary, edge_column, scan_x, scan_lag.
    cbn [state xpos ypos splat3_lag_correction_count move_state stop_state].
    unfold scan_x, scan_lag.
    destruct (Z.even y); repeat split; try reflexivity; lia.
  - exists (move_state image_data y (319 + i)), (stop_state y (319 + i + 1)),
      (hat_report (scan_dir y)).
    split; [apply move_reached; (assumption || lia)|].
    rewrite move_step by (assumption || lia).
    unfold at_boundary, edge_column, scan_dir, hat_report.
    cbn [state xpos ypos splat3_lag_correction_count move_state stop_state HAT set_HAT].
    unfold scan_x, scan_lag.
    destruct (Z.even y); repeat split; try reflexivity; try assumption; lia.
  - exists (move_state image_data y 329), (stop_state (y + 1) 0), (hat_report HAT_BOTTOM).
    split; [apply move_reached; (assumption || lia)|].
    rewrite move_step_down by assumption.
    unfold edge_column, hat_report.
    cbn [state xpos ypos splat3_lag_correction_count move_state stop_state HAT set_HAT].
    unfold scan_x, scan_lag. rewrite even_succ_negb.
    destruct (Z.even y); repeat split; try reflexivity; try assumption; lia.
Qed.

(** C7, as the code has it.  [SYNC_POSITION] is entered with
    [command_count = 0].  Each of its first [ms_2_count 4000 + 1] logical
    steps, taken at [command_count = k] for [k = 0..ms_2_count 4000], drives
    both axes of the left stick to [STICK_MIN], leaves the right stick at
    [STICK_CENTER], and asserts [SWITCH_LCLICK] exactly when [k] is one of
    the two checkpoints [ms_2_count 1500] and [ms_2_count 3000]; these are
    two different steps of the phase.  The step after them, the
    [ms_2_count 4000 + 2]-th, reports the neutral report, sets the cursor to
    [(0, 0)] and the phase to [STOP]. *)
Theorem C7_sync_position_phase :
  hat_codes_ok = true ->
  button_mask_ok SWITCH_LCLICK = true ->
  POLLING_MS < 1504 ->
  leads_to image_data (Z.to_nat (ms_2_count 2000 + 2)) initial (position_state 0) /\
  (forall k, 0 <= k <= ms_2_count 4000 ->
     leads_to image_data (Z.to_nat k) (position_state 0) (position_state k) /\
     state (position_state k) = SYNC_POSITION /\
     exists r,
       logical_step image_data (position_state k) = Some (position_state (k + 1), r) /\
       LX r = u8 STICK_MIN /\ LY r = u8 STICK_MIN /\
       RX r = u8 STICK_CENTER /\ RY r = u8 STICK_CENTER /\
       (asserted SWITCH_LCLICK r <-> k = ms_2_count 1500 \/ k = ms_2_count 3000)) /\
  0 <= ms_2_count 1500 /\ ms_2_count 1500 < ms_2_count 3000 /\
  ms_2_count 3000 <= ms_2_count 4000 /\
  leads_to image_data (Z.to_nat (ms_2_count 4000 + 1)) (position_state 0)
    (position_state (ms_2_count 4000 + 1)) /\
  state (position_state (ms_2_count 4000 + 1)) = SYNC_POSITION /\
  exists g,
    logical_step image_data (position_state (ms_2_count 4000 + 1))
    = Some (g, neutral_report) /\
    leads_to image_data (Z.to_nat (ms_2_count 4000 + 2)) (position_state 0) g /\
    state g = STOP /\ xpos g = 0 /\ ypos g = 0 /\
    ~ asserted SWITCH_LCLICK neutral_report.
Proof.
  intros Hhat Hmask Hpoll.
  pose proof ms_2_count_2000 as H2. pose proof ms_2_count_4000 as H4.
  assert (Hphase : forall k, 0 <= k <= ms_2_count 4000 + 1 ->
            leads_to image_data (Z.to_nat k) (position_state 0) (position_state k)).
  { intros k Hk. pose proof (position_phase image_data (Z.to_nat k) ltac:(lia)) as H.
    rewrite Z2Nat.id in H by lia. exact H. }
  split.
  { pose proof (position_run image_data 0 ltac:(lia)) as H.
    rewrite Nat.add_0_r in H. exact H. }
  split.
  { intros k Hk. split; [apply Hphase; lia|]. split; [reflexivity|].
    exists (sync_report k). split; [apply position_step; assumption|].
    repeat (split; [unfold sync_report; destruct (_ || _); reflexivity|]).
    apply asserted_sync_report. assumption. }
  split; [apply ms_2_count_range; lia|].
  split; [apply ms_2_count_checkpoints; assumption|].
  split; [apply ms_2_count_mono; lia|].
  split; [apply Hphase; lia|]. split; [reflexivity|].
  exists (stop_state 0 0). split; [apply position_exit; assumption|].
  split.
  { replace (Z.to_nat (ms_2_count 4000 + 2))
      with (S (Z.to_nat (ms_2_count 4000 + 1))) by lia.
    eapply leads_to_snoc; [apply Hphase; lia | apply position_exit; assumption]. }
  repeat split. apply asserted_neutral.
Qed.

End Properties.

(** ** Further properties of the code *)

Section Further.

Context {joystick_h : JoystickH}.
Variable image_data : list Z.

(** *** Calls and logical steps *)

Lemma polls_app (bufs1 bufs2 : list USB_JoystickReport_Input_t) (g : Globals) :
  polls image_data (bufs1 ++ bufs2) g =
  match polls image_data bufs1 g with
  | None => None
  | Some (g1, rs1) =>
      match polls image_data bufs2 g1 with
      | None => None
      | Some (g2, rs2) => Some (g2, rs1 ++ rs2)
      end
  end.
Proof.
  revert g. induction bufs1 as [|b bufs1 IH]; intros g; cbn [polls app].
  - destruct (polls image_data bufs2 g) as [[g2 rs2]|]; reflexivity.
  - destruct (GetNextReport image_data g b) as [[g1 r]|]; [|reflexivity].
    rewrite IH. destruct (polls image_data bufs1 g1) as [[ga rsa]|]; [|reflexivity].
    destruct (polls image_data bufs2 ga) as [[gb rsb]|]; reflexivity.
Qed.

Lemma polls_reachable (bufs : list USB_JoystickReport_Input_t) (g g' : Globals)
  (rs : list USB_JoystickReport_Input_t) :
  reachable image_data g -> polls image_data bufs g = Some (g', rs) ->
  reachable image_data g'.
Proof.
  revert g rs. induction bufs as [|b bufs IH]; intros g rs Hg; cbn [polls].
  - intros [= <- _]. exact Hg.
  - destruct (GetNextReport image_data g b) as [[g1 r]|] eqn:Hcall; [|discriminate].
    destruct (polls image_data bufs g1) as [[g2 rs2]|] eqn:Hrest; [|discriminate].
    intros [= <- _]. apply (IH g1 rs2); [|exact Hrest].
    exact (reach_call image_data g b g1 r Hg Hcall).
Qed.

(** Three calls from a state without pending echoes, on any buffers, are one
    logical step. *)
Lemma three_calls (g : Globals) (b1 b2 b3 : USB_JoystickReport_Input_t) :
  echoes g <= 0 ->
  polls image_data [b1; b2; b3] g =
  match logical_step image_data g with
  | None => None
  | Some (g', r) => Some (g', [r; r; r])
  end /\
  forall g' r, logical_step image_data g = Some (g', r) -> echoes g' <= 0.
Proof.
  intros He. destruct (state g) eqn:Hs.
  5:{ unfold logical_step. cbn [polls]. rewrite !call_done by assumption.
      split; [reflexivity|]. intros g' r [= <- _]. exact He. }
  all: rewrite logical_step_fresh by congruence; cbn [polls];
    rewrite call_fresh by congruence;
    (destruct (states_and_moves image_data g neutral_report) as [[g1 r1]|];
     [|split; [reflexivity | discriminate]]);
    rewrite call_replay by (cbn [echoes set_echoes]; unfold ECHOES; lia);
    rewrite call_replay by (cbn [echoes set_echoes]; unfold ECHOES; lia);
    (split; [reflexivity|]); intros g' r [= <- _]; cbn [echoes set_echoes]; lia.
Qed.

Lemma leads_to_functional (n : nat) (g g1 g2 : Globals) :
  leads_to image_data n g g1 -> leads_to image_data n g g2 -> g1 = g2.
Proof. intros [rs1 H1] [rs2 H2]. rewrite H1 in H2. congruence. Qed.

Lemma done_steps (n : nat) (g : Globals) :
  echoes g <= 0 -> state g = DONE -> leads_to image_data n g g.
Proof.
  intros He Hs. induction n as [|n IH]; [apply leads_to_refl|].
  apply leads_to_step with (g1 := g) (r := neutral_report); [|exact IH].
  unfold logical_step. rewrite !call_done by assumption. reflexivity.
Qed.

(** X8.  From a state without pending echoes, [3 * n] calls on any buffers
    whatever do what [n] logical steps do: they fail together, end in the
    same state, and the calls deliver each logical step's report three
    times. *)
Theorem X8_calls_are_tripled_steps (n : nat) (g : Globals)
  (bufs : list USB_JoystickReport_Input_t) :
  echoes g <= 0 -> length bufs = (3 * n)%nat ->
  polls image_data bufs g =
  match steps image_data n g with
  | None => None
  | Some (g', rs) => Some (g', tripled rs)
  end.
Proof.
  revert g bufs. induction n as [|n IH]; intros g bufs He Hlen.
  - destruct bufs; [reflexivity | discriminate].
  - destruct bufs as [|b1 [|b2 [|b3 bufs]]]; cbn [length] in Hlen; try lia.
    change (b1 :: b2 :: b3 :: bufs) with ([b1; b2; b3] ++ bufs).
    rewrite polls_app. destruct (three_calls g b1 b2 b3 He) as [-> Hecho].
    cbn [steps].
    destruct (logical_step image_data g) as [[g1 r]|]; [|reflexivity].
    rewrite (IH g1 bufs (Hecho g1 r eq_refl) ltac:(lia)).
    destruct (steps image_data n g1) as [[g2 rs]|]; reflexivity.
Qed.

(** *** The first phase *)

(** X1.  From [initial] the phase is [SYNC_CONTROLLER] for the first
    [ms_2_count 2000 + 2] logical steps.  The step taken at
    [command_count = k], for [k] up to [ms_2_count 2000], reports the neutral
    report and counts to [k + 1]; the step taken at [ms_2_count 2000 + 1]
    reports the neutral report too, resets the counter to 0 and enters
    [SYNC_POSITION]. *)
Theorem X1_sync_controller_phase (k : Z) :
  0 <= k <= ms_2_count 2000 ->
  leads_to image_data (Z.to_nat k) initial (controller_state k) /\
  state (controller_state k) = SYNC_CONTROLLER /\
  command_count (controller_state k) = k /\
  logical_step image_data (controller_state k)
  = Some (controller_state (k + 1), neutral_report) /\
  leads_to image_data (Z.to_nat (ms_2_count 2000 + 1)) initial
    (controller_state (ms_2_count 2000 + 1)) /\
  exists g,
    logical_step image_data (controller_state (ms_2_count 2000 + 1))
    = Some (g, neutral_report) /\
    state g = SYNC_POSITION /\ command_count g = 0 /\ xpos g = 0 /\ ypos g = 0.
Proof.
  intros Hk. pose proof ms_2_count_2000 as H2.
  assert (Hrun : forall j, 0 <= j <= ms_2_count 2000 + 1 ->
            leads_to image_data (Z.to_nat j) initial (controller_state j)).
  { intros j Hj. pose proof (controller_run image_data (Z.to_nat j) ltac:(lia)) as H.
    rewrite Z2Nat.id in H by lia. exact H. }
  split; [apply Hrun; lia|]. split; [reflexivity|]. split; [reflexivity|].
  split; [apply controller_step; assumption|].
  split; [apply Hrun; lia|].
  exists (position_state 0). split; [apply controller_exit|]. repeat split.
Qed.

(** *** What a call can report *)

Lemma fresh_alphabet (g g1 : Globals) (r : USB_JoystickReport_Input_t) :
  states_and_moves image_data g neutral_report = Some (g1, r) ->
  In r report_alphabet.
Proof.
  unfold states_and_moves, report_alphabet, hat_report.
  destruct (state g).
  - destruct (_ >? _); intros [= _ <-]; cbn [In]; auto.
  - destruct (_ >? _); [intros [= _ <-]; cbn [In]; auto|].
    destruct (_ || _); intros [= _ <-]; cbn [In Button neutral_report set_LX set_LY];
      auto 10.
  - destruct (_ || _); [destruct (_ <? _); [destruct (_ =? _)|]|destruct (_ =? _)];
      intros [= _ <-]; cbn [In]; auto 10.
  - destruct (is_black image_data (xpos g) (ypos g)) as [ink|]; [|discriminate].
    destruct (ink =? 0); intros [= _ <-]; cbn [In Button neutral_report]; auto 10.
  - intros [= _ <-]; cbn [In]; auto.
Qed.

Lemma alphabet_call (g g' : Globals) (b r : USB_JoystickReport_Input_t) :
  (0 < echoes g -> In (last_report g) report_alphabet) ->
  GetNextReport image_data g b = Some (g', r) ->
  In r report_alphabet /\ (0 < echoes g' -> In (last_report g') report_alphabet).
Proof.
  intros Hlast. destruct (Z.ltb_spec 0 (echoes g)) as [Hpos|Hzero].
  { rewrite call_replay by assumption. intros [= <- <-].
    cbn [last_report set_echoes]. auto. }
  destruct (state g) eqn:Hs.
  5:{ rewrite call_done by assumption. intros [= <- <-].
      split; [left; reflexivity | exact Hlast]. }
  all: rewrite call_fresh by congruence;
    destruct (states_and_moves image_data g neutral_report) as [[g1 r1]|] eqn:Hsm;
    [|discriminate];
    intros [= <- <-]; cbn [last_report set_echoes set_last_report];
    pose proof (fresh_alphabet _ _ _ Hsm); auto.
Qed.

Lemma alphabet_reachable (g : Globals) :
  reachable image_data g -> 0 < echoes g -> In (last_report g) report_alphabet.
Proof.
  induction 1 as [|g b g' r _ IH Hcall]; [cbn; lia|].
  exact (proj2 (alphabet_call _ _ _ _ IH Hcall)).
Qed.

(** X2.  Whatever the bitmap, a call made from a reachable state returns one
    of seven reports: the neutral report; the neutral report with the HAT
    left, right or down; the neutral report with [SWITCH_A]; the left stick
    at [STICK_MIN] on both axes, with or without [SWITCH_LCLICK].  So a
    button never comes with a direction, the right stick never leaves the
    centre, and (the HAT codes being distinct) the HAT is never up. *)
Theorem X2_reports_are_among_seven (g g' : Globals) (b r : USB_JoystickReport_Input_t) :
  reachable image_data g ->
  GetNextReport image_data g b = Some (g', r) ->
  In r report_alphabet /\
  RX r = u8 STICK_CENTER /\ RY r = u8 STICK_CENTER /\
  (HAT r <> u8 HAT_CENTER -> Button r = 0) /\
  (hat_codes_ok = true -> HAT r <> HAT_TOP).
Proof.
  intros Hreach Hcall.
  destruct (alphabet_call _ _ _ _ (alphabet_reachable g Hreach) Hcall) as [Hin _].
  split; [exact Hin|].
  unfold report_alphabet, hat_report in Hin. cbn [In] in Hin.
  assert (Htop : hat_codes_ok = true ->
                 u8 HAT_CENTER <> HAT_TOP /\ u8 HAT_LEFT <> HAT_TOP /\
                 u8 HAT_RIGHT <> HAT_TOP /\ u8 HAT_BOTTOM <> HAT_TOP).
  { intros Hhat. destruct (hat_codes_ok_spec Hhat)
      as [(_ & -> & -> & -> & ->) (? & ? & ? & ? & _)].
    repeat split; congruence. }
  repeat destruct Hin as [<-|Hin]; try contradiction;
    cbn [RX RY HAT Button neutral_report set_HAT set_Button set_LX set_LY];
    (split; [reflexivity|]); (split; [reflexivity|]);
    (split; [try reflexivity; congruence|]); intros Hhat; apply Htop; exact Hhat.
Qed.

(** *** How the pen moves *)

Lemma pen_moved_call (g g' : Globals) (b r : USB_JoystickReport_Input_t) :
  hat_codes_ok = true -> Inv g ->
  GetNextReport image_data g b = Some (g', r) -> pen_moved g g'.
Proof.
  intros Hhat. unfold Inv, ECHOES, on_canvas, at_boundary, pen_moved.
  intros (He & Hcc & Hlag & Hst).
  destruct (Z.ltb_spec 0 (echoes g)) as [Hpos|Hzero].
  { rewrite call_replay by assumption. intros [= <- _]. cbn [xpos ypos set_echoes].
    lia. }
  destruct (state g) eqn:Hs.
  - rewrite call_fresh by congruence. unfold states_and_moves. rewrite Hs.
    destruct (_ >? _); unfold position_update; unfold_setters; try rewrite Hs;
      intros [= <- _]; unfold_setters; lia.
  - rewrite call_fresh by congruence. unfold states_and_moves. rewrite Hs.
    destruct (_ >? _).
    + rewrite position_update_center by (assumption || reflexivity).
      intros [= <- _]. unfold_setters. lia.
    + unfold position_update; unfold_setters; rewrite Hs.
      intros [= <- _]; unfold_setters; lia.
  - rewrite call_fresh by congruence.
    destruct Hst as (Hc0 & Hxy & Hb).
    assert (Hpar : Z.rem (ypos g) 2 = 0 \/ Z.rem (ypos g) 2 = 1) by dlia.
    assert (Hcases :
      (xpos g = 0 /\ Z.rem (ypos g) 2 = 1) \/
      (xpos g = 319 /\ Z.rem (ypos g) 2 = 0) \/
      (xpos g <> 319 /\ Z.rem (ypos g) 2 = 0) \/
      (xpos g <> 0 /\ Z.rem (ypos g) 2 <> 0)) by lia.
    destruct Hcases as [[Hx Hy] | [[Hx Hy] | [[Hx Hy] | [Hx Hy]]]].
    + destruct (Z.ltb_spec (splat3_lag_correction_count g) 10).
      * rewrite move_lag_left by assumption.
        rewrite position_update_left by (assumption || reflexivity). unfold_setters.
        destruct (_ >? _); intros [= <- _]; unfold_setters; lia.
      * rewrite move_down by (assumption || (unfold at_boundary; lia)).
        rewrite position_update_bottom by (assumption || reflexivity).
        intros [= <- _]. unfold_setters. lia.
    + destruct (Z.ltb_spec (splat3_lag_correction_count g) 10).
      * rewrite move_lag_right by assumption.
        rewrite position_update_right by (assumption || reflexivity). unfold_setters.
        destruct (_ <? _); intros [= <- _]; unfold_setters; lia.
      * rewrite move_down by (assumption || (unfold at_boundary; lia)).
        rewrite position_update_bottom by (assumption || reflexivity).
        intros [= <- _]. unfold_setters. lia.
    + rewrite move_right by assumption.
      rewrite position_update_right by (assumption || reflexivity). unfold_setters.
      destruct (_ <? _); intros [= <- _]; unfold_setters; lia.
    + rewrite move_left by assumption.
      rewrite position_update_left by (assumption || reflexivity). unfold_setters.
      destruct (_ >? _); intros [= <- _]; unfold_setters; lia.
  - rewrite call_fresh by congruence.
    destruct (is_black image_data (xpos g) (ypos g)) as [ink|] eqn:Hi.
    2:{ unfold states_and_moves. rewrite Hs, Hi. discriminate. }
    rewrite (stop_report _ _ _ Hs Hi).
    rewrite position_update_center
      by (assumption || (destruct (ink =? 0); reflexivity)).
    intros [= <- _]. unfold_setters. lia.
  - rewrite call_done by assumption. intros [= <- _]. lia.
Qed.

(** X3.  A call made from a reachable state leaves the pen where it is or
    moves it by exactly one pixel to the right, to the left or down: never
    up, never diagonally, never by more than one pixel, and the row never
    decreases. *)
Theorem X3_pen_moves_one_pixel_never_up (g g' : Globals)
  (b r : USB_JoystickReport_Input_t) :
  hat_codes_ok = true ->
  reachable image_data g ->
  GetNextReport image_data g b = Some (g', r) ->
  pen_moved g g' /\ ypos g <= ypos g'.
Proof.
  intros Hhat Hreach Hcall.
  pose proof (pen_moved_call g g' b r Hhat (Inv_reachable image_data Hhat g Hreach) Hcall)
    as Hmove.
  split; [exact Hmove|]. unfold pen_moved in Hmove. lia.
Qed.

(** *** Ink *)

Lemma fresh_not_ink (g g1 : Globals) (r : USB_JoystickReport_Input_t) :
  Z.land (u16 SWITCH_LCLICK) SWITCH_A = 0 ->
  state g <> STOP ->
  states_and_moves image_data g neutral_report = Some (g1, r) ->
  ~ asserted SWITCH_A r.
Proof.
  intros Hdisj Hs. unfold states_and_moves, asserted.
  destruct (state g); try congruence.
  - destruct (_ >? _); intros [= _ <-]; cbn [Button neutral_report];
      rewrite Z.land_0_l; tauto.
  - destruct (_ >? _); [intros [= _ <-]; cbn [Button neutral_report];
                        rewrite Z.land_0_l; tauto|].
    destruct (_ || _); intros [= _ <-];
      cbn [Button neutral_report set_Button set_LX set_LY];
      rewrite ?Z.lor_0_l, ?Hdisj, ?Z.land_0_l; tauto.
  - destruct (_ || _); [destruct (_ <? _); [destruct (_ =? _)|]|destruct (_ =? _)];
      intros [= _ <-]; cbn [Button neutral_report set_HAT];
      rewrite Z.land_0_l; tauto.
  - intros [= _ <-]. cbn [Button neutral_report]. rewrite Z.land_0_l. tauto.
Qed.

Lemma ink_call (g g' : Globals) (b r : USB_JoystickReport_Input_t) :
  hat_codes_ok = true ->
  Z.land (u16 SWITCH_LCLICK) SWITCH_A = 0 ->
  (0 < echoes g -> asserted SWITCH_A (last_report g) ->
   exists ink, is_black image_data (xpos g) (ypos g) = Some ink /\ ink <> 0) ->
  GetNextReport image_data g b = Some (g', r) ->
  (asserted SWITCH_A r ->
   exists ink, is_black image_data (xpos g') (ypos g') = Some ink /\ ink <> 0) /\
  (0 < echoes g' -> asserted SWITCH_A (last_report g') ->
   exists ink, is_black image_data (xpos g') (ypos g') = Some ink /\ ink <> 0).
Proof.
  intros Hhat Hdisj Hlast.
  destruct (Z.ltb_spec 0 (echoes g)) as [Hpos|Hzero].
  { rewrite call_replay by assumption. intros [= <- <-].
    cbn [last_report xpos ypos set_echoes]. auto. }
  destruct (state g) eqn:Hs.
  4:{ rewrite call_fresh by congruence.
      destruct (is_black image_data (xpos g) (ypos g)) as [ink|] eqn:Hi.
      2:{ unfold states_and_moves. rewrite Hs, Hi. discriminate. }
      rewrite (stop_report _ _ _ Hs Hi).
      rewrite position_update_center
        by (assumption || (destruct (ink =? 0); reflexivity)).
      intros [= <- <-]. cbn [last_report xpos ypos set_echoes set_last_report set_state].
      assert (Hink : asserted SWITCH_A
                (if ink =? 0 then neutral_report
                 else set_Button neutral_report (u16 (Z.lor 0 SWITCH_A))) ->
              exists ink0, is_black image_data (xpos g) (ypos g) = Some ink0 /\ ink0 <> 0).
      { destruct (Z.eqb_spec ink 0) as [->|Hne].
        - intros Ha. destruct (asserted_neutral _ Ha).
        - intros _. exists ink. rewrite Hi. split; [reflexivity | assumption]. }
      split; [exact Hink | intros _; exact Hink]. }
  4:{ rewrite call_done by assumption. intros [= <- <-].
      split; [intros Ha; destruct (asserted_neutral _ Ha) | exact Hlast]. }
  all: rewrite call_fresh by congruence;
    destruct (states_and_moves image_data g neutral_report) as [[g1 r1]|] eqn:Hsm;
    [|discriminate];
    intros [= <- <-]; cbn [last_report set_echoes set_last_report];
    assert (Hno : ~ asserted SWITCH_A r1)
      by (apply (fresh_not_ink g g1 r1 Hdisj); [congruence | exact Hsm]);
    split; [intros Ha | intros _ Ha]; destruct (Hno Ha).
Qed.

(** X4.  A report asserts [SWITCH_A] only while the pen stands on an inked
    pixel: if a call made from a reachable state returns a report with
    [SWITCH_A] asserted, a fresh one or a replay, then [is_black] is true at
    the cursor position the call leaves.  In particular no report of a run
    on an all-white bitmap asserts it. *)
Theorem X4_ink_only_on_inked_pixels (g g' : Globals) (b r : USB_JoystickReport_Input_t) :
  hat_codes_ok = true ->
  Z.land (u16 SWITCH_LCLICK) SWITCH_A = 0 ->
  reachable image_data g ->
  GetNextReport image_data g b = Some (g', r) ->
  asserted SWITCH_A r ->
  exists ink, is_black image_data (xpos g') (ypos g') = Some ink /\ ink <> 0.
Proof.
  intros Hhat Hdisj Hreach Hcall.
  assert (Hlast : forall g0, reachable image_data g0 ->
            0 < echoes g0 -> asserted SWITCH_A (last_report g0) ->
            exists ink, is_black image_data (xpos g0) (ypos g0) = Some ink /\ ink <> 0).
  { induction 1 as [|g0 b0 g1 r0 _ IH Hc]; [cbn; lia|].
    exact (proj2 (ink_call _ _ _ _ Hhat Hdisj IH Hc)). }
  exact (proj1 (ink_call _ _ _ _ Hhat Hdisj (Hlast g Hreach) Hcall)).
Qed.

(** X5.  The scan covers the canvas: for every pixel [(x, y)] of the canvas
    some logical step of the run from [initial] is a [STOP] step taken with
    the cursor at [(x, y)]; it leaves the cursor there and its report asserts
    [SWITCH_A] exactly when the pixel is inked. *)
Theorem X5_every_pixel_is_visited (x y : Z) :
  hat_codes_ok = true ->
  Z.of_nat (length image_data) = image_data_size ->
  button_mask_ok SWITCH_A = true ->
  0 <= x <= 319 -> 0 <= y <= 119 ->
  exists n g g' r ink,
    leads_to image_data n initial g /\ queries_bitmap g /\
    xpos g = x /\ ypos g = y /\
    logical_step image_data g = Some (g', r) /\
    xpos g' = x /\ ypos g' = y /\
    is_black image_data x y = Some ink /\
    (asserted SWITCH_A r <-> ink <> 0).
Proof.
  intros Hhat Hlen Hmask Hx Hy.
  set (c := if Z.even y then x else 319 - x).
  assert (Hc : 0 <= c < 330) by (unfold c; destruct (Z.even y); lia).
  assert (Hsx : scan_x y c = x) by (unfold scan_x, c; destruct (Z.even y); lia).
  destruct (is_black_defined image_data Hlen x y) as [ink Hi];
    [left; unfold on_canvas; lia|].
  exists (Z.to_nat (draw_start + 2 * (330 * y + c))), (stop_state y c),
    (move_state image_data y c), (ink_report image_data x y), ink.
  split; [apply stop_reached; (assumption || lia)|].
  split; [split; reflexivity|]. split; [exact Hsx|]. split; [reflexivity|].
  split.
  { replace (ink_report image_data x y) with (ink_report image_data (scan_x y c) y)
      by (rewrite Hsx; reflexivity).
    apply stop_step; (assumption || lia). }
  split; [exact Hsx|]. split; [reflexivity|]. split; [exact Hi|].
  apply asserted_ink_report; assumption.
Qed.

(** *** The run as a whole *)

Lemma leads_to_exists (n : nat) (g : Globals) :
  hat_codes_ok = true ->
  Z.of_nat (length image_data) = image_data_size ->
  reachable image_data g -> exists g', leads_to image_data n g g'.
Proof.
  intros Hhat Hlen. revert g. induction n as [|n IH]; intros g Hg.
  - exists g. apply leads_to_refl.
  - assert (Hstep : exists g1 r, logical_step image_data g = Some (g1, r)).
    { unfold logical_step.
      destruct (call_returns image_data Hlen g blank
                  (Inv_reachable image_data Hhat g Hg)) as (g1 & r1 & H1).
      pose proof (reach_call image_data _ _ _ _ Hg H1) as Hg1.
      destruct (call_returns image_data Hlen g1 blank
                  (Inv_reachable image_data Hhat g1 Hg1)) as (g2 & r2 & H2).
      pose proof (reach_call image_data _ _ _ _ Hg1 H2) as Hg2.
      destruct (call_returns image_data Hlen g2 blank
                  (Inv_reachable image_data Hhat g2 Hg2)) as (g3 & r3 & H3).
      rewrite H1, H2, H3. eauto. }
    destruct Hstep as (g1 & r & Hstep).
    destruct (IH g1 (logical_step_reachable image_data _ _ _ Hg Hstep)) as [g' Hg'].
    exists g'. exact (leads_to_step image_data _ _ _ _ _ Hstep Hg').
Qed.

(** Where the run from [initial] is after [n] logical steps. *)
Lemma trajectory_cases (n : nat) (g : Globals) :
  hat_codes_ok = true ->
  Z.of_nat (length image_data) = image_data_size ->
  leads_to image_data n initial g ->
  (Z.of_nat n < draw_start /\
   (state g = SYNC_CONTROLLER \/ state g = SYNC_POSITION)) \/
  (exists y c, 0 <= y < 120 /\ 0 <= c < 330 /\
               Z.of_nat n = draw_start + 2 * (330 * y + c) /\ g = stop_state y c) \/
  (exists y c, 0 <= y < 120 /\ 0 <= c < 330 /\
               Z.of_nat n = draw_start + 2 * (330 * y + c) + 1 /\
               g = move_state image_data y c) \/
  (Z.of_nat n = draw_start + 79200 /\ g = stop_state 120 0) \/
  (draw_start + 79201 <= Z.of_nat n /\ g = done_state image_data).
Proof.
  intros Hhat Hlen Hrun.
  pose proof ms_2_count_2000 as H2. pose proof ms_2_count_4000 as H4.
  assert (HD : draw_start = ms_2_count 2000 + ms_2_count 4000 + 4) by reflexivity.
  set (m := Z.of_nat n) in *.
  destruct (Z.le_gt_cases m (ms_2_count 2000 + 1)) as [Hc|Hc].
  { left. split; [lia|]. left.
    pose proof (controller_run image_data n Hc) as H.
    rewrite (leads_to_functional _ _ _ _ Hrun H). reflexivity. }
  destruct (Z.lt_ge_cases m draw_start) as [Hp|Hp].
  { left. split; [lia|]. right.
    pose proof (position_run image_data (n - Z.to_nat (ms_2_count 2000 + 2))
                  ltac:(lia)) as H.
    replace (Z.to_nat (ms_2_count 2000 + 2) + (n - Z.to_nat (ms_2_count 2000 + 2)))%nat
      with n in H by lia.
    rewrite (leads_to_functional _ _ _ _ Hrun H). reflexivity. }
  right.
  destruct (Z.lt_ge_cases m (draw_start + 79200)) as [Hs|Hs].
  { set (d := m - draw_start).
    set (q := d / 2). set (y := q / 330). set (c := q mod 330).
    assert (Hd : 0 <= d < 79200) by (unfold d; lia).
    assert (Hq : 0 <= q < 39600 /\ (d = 2 * q \/ d = 2 * q + 1))
      by (unfold q; clear Hrun; dlia).
    assert (Hy : 0 <= y < 120) by (unfold y; clear Hrun; dlia).
    assert (Hcc : 0 <= c < 330) by (unfold c; apply Z.mod_pos_bound; lia).
    assert (Hqyc : q = 330 * y + c) by (unfold y, c; clear Hrun; dlia).
    destruct Hq as [Hq [Heven|Hodd]].
    - left. exists y, c. repeat split; try lia.
      pose proof (stop_reached image_data Hhat Hlen y c Hy Hcc) as H.
      replace (Z.to_nat (draw_start + 2 * (330 * y + c))) with n in H by lia.
      exact (leads_to_functional _ _ _ _ Hrun H).
    - right. left. exists y, c. repeat split; try lia.
      pose proof (move_reached image_data Hhat Hlen y c Hy Hcc) as H.
      replace (Z.to_nat (draw_start + 2 * (330 * y + c) + 1)) with n in H by lia.
      exact (leads_to_functional _ _ _ _ Hrun H). }
  right. right.
  destruct (Z.eq_dec m (draw_start + 79200)) as [Heq|Hne].
  { left. split; [exact Heq|].
    pose proof (final_stop_reached image_data Hhat Hlen) as H.
    replace (Z.to_nat (draw_start + 79200)) with n in H by lia.
    exact (leads_to_functional _ _ _ _ Hrun H). }
  right. split; [lia|].
  pose proof (done_reached image_data Hhat Hlen) as H.
  pose proof (done_steps (n - Z.to_nat (draw_start + 79201)) (done_state image_data)
                ltac:(cbn; lia) eq_refl) as H'.
  pose proof (leads_to_trans image_data _ _ _ _ _ H H') as H''.
  replace (Z.to_nat (draw_start + 79201) + (n - Z.to_nat (draw_start + 79201)))%nat
    with n in H'' by lia.
  exact (leads_to_functional _ _ _ _ Hrun H'').
Qed.

(** X6.  The run from [initial] never fails and takes exactly
    [draw_start + 79201] logical steps, three calls each, to reach [DONE]:
    the phase after [n] logical steps is [DONE] if and only if
    [n >= draw_start + 79201].  The two synchronisation phases account for
    [draw_start] of them, between 4 and 379 whatever [POLLING_MS] is. *)
Theorem X6_done_after_exactly (n : nat) :
  hat_codes_ok = true ->
  Z.of_nat (length image_data) = image_data_size ->
  (exists g, leads_to image_data n initial g) /\
  (forall g, leads_to image_data n initial g ->
             (state g = DONE <-> draw_start + 79201 <= Z.of_nat n)) /\
  4 <= draw_start <= 379.
Proof.
  intros Hhat Hlen.
  pose proof ms_2_count_2000 as H2. pose proof ms_2_count_4000 as H4.
  split; [apply leads_to_exists; (assumption || apply reach_initial)|].
  split.
  2:{ pose proof (ms_2_count_range 2000 ltac:(lia)) as Hr.
      change (Z.quot 2000 16) with 125 in Hr. unfold draw_start. lia. }
  intros g Hrun.
  destruct (trajectory_cases n g Hhat Hlen Hrun)
    as [[Hn [Hs|Hs]] | [(y & c & Hy & Hc & Hn & ->) | [(y & c & Hy & Hc & Hn & ->)
       | [[Hn ->] | [Hn ->]]]]].
  - rewrite Hs. split; [discriminate | intros; exfalso; lia].
  - rewrite Hs. split; [discriminate | intros; exfalso; lia].
  - cbn [state stop_state]. split; [discriminate | intros; exfalso; lia].
  - cbn [state move_state]. split; [discriminate | intros; exfalso; lia].
  - cbn [state stop_state]. split; [discriminate | intros; exfalso; lia].
  - cbn [state done_state]. split; [intros; lia | reflexivity].
Qed.

(** X7.  A pixel that is not in the edge column of its row is queried once:
    two logical steps of the run from [initial] that both query the bitmap
    with the cursor at the same such pixel are the same step. *)
Theorem X7_inner_pixels_are_visited_once (n n' : nat) (g g' : Globals) :
  hat_codes_ok = true ->
  Z.of_nat (length image_data) = image_data_size ->
  leads_to image_data n initial g -> leads_to image_data n' initial g' ->
  queries_bitmap g -> queries_bitmap g' ->
  xpos g = xpos g' -> ypos g = ypos g' ->
  xpos g <> edge_column (ypos g) ->
  n = n'.
Proof.
  intros Hhat Hlen Hrun Hrun' [_ Hs] [_ Hs'] Hx Hy Hedge.
  assert (Hstop : forall k h, leads_to image_data k initial h -> state h = STOP ->
            exists y c, (0 <= y < 120 /\ 0 <= c < 330 \/ y = 120 /\ c = 0) /\
                        Z.of_nat k = draw_start + 2 * (330 * y + c) /\
                        h = stop_state y c).
  { intros k h Hk Hst.
    destruct (trajectory_cases k h Hhat Hlen Hk)
      as [[_ [Hh|Hh]] | [(y & c & Hyr & Hcr & Hn & ->) | [(y & c & _ & _ & _ & ->)
         | [[Hn ->] | [_ ->]]]]]; try (rewrite Hst in Hh; discriminate);
      try discriminate.
    - exists y, c. repeat split; auto.
    - exists 120, 0. repeat split; try lia. }
  destruct (Hstop n g Hrun Hs) as (y & c & Hr & Hn & ->).
  destruct (Hstop n' g' Hrun' Hs') as (y' & c' & Hr' & Hn' & ->).
  cbn [xpos ypos stop_state] in Hx, Hy, Hedge. subst y'.
  unfold scan_x, edge_column in *.
  assert (c = c').
  { destruct Hr as [[Hyr Hcr]|[-> ->]]; destruct Hr' as [[Hyr' Hcr']|[Hy' ->]];
      try lia; destruct (Z.even y); lia. }
  lia.
Qed.

(** *** [HID_Task] and the main loop *)

Lemma written_app (c1 c2 : list USB_call) :
  written (c1 ++ c2) = written c1 ++ written c2.
Proof.
  induction c1 as [|[ep|data| |r|] c1 IH]; cbn [written app]; rewrite ?IH; reflexivity.
Qed.

Lemma stream_reads_app (c1 c2 : list USB_call) :
  stream_reads (c1 ++ c2) = stream_reads c1 ++ stream_reads c2.
Proof.
  induction c1 as [|[ep|data| |r|] c1 IH]; cbn [stream_reads app]; rewrite ?IH;
    reflexivity.
Qed.

Lemma out_acks_app (c1 c2 : list USB_call) :
  out_acks (c1 ++ c2) = (out_acks c1 + out_acks c2)%nat.
Proof.
  induction c1 as [|[ep|data| |r|] c1 IH]; cbn [out_acks app]; rewrite ?IH;
    reflexivity.
Qed.

Lemma HID_Task_outcome (g : Globals) (t : Tick) :
  outcome (HID_Task image_data g t) =
  if delivers t
  then match GetNextReport image_data g (JoystickInputData t) with
       | None => None
       | Some (g', r) => Some (g', [r])
       end
  else Some (g, []).
Proof.
  unfold HID_Task, delivers.
  destruct (configured t); cbn [negb andb]; [|reflexivity].
  destruct (in_ready t).
  - destruct (GetNextReport image_data g (JoystickInputData t)) as [[g' r]|];
      [|reflexivity].
    cbn [outcome]. rewrite !written_app.
    destruct (out_received t); [destruct (read_write_allowed t)|]; reflexivity.
  - cbn [outcome]. rewrite !written_app.
    destruct (out_received t); [destruct (read_write_allowed t)|]; reflexivity.
Qed.

Lemma main_loop_outcome (ticks : list Tick) (g : Globals) :
  outcome (main_loop image_data ticks g)
  = polls image_data (map JoystickInputData (filter delivers ticks)) g.
Proof.
  revert g. induction ticks as [|t ticks IH]; intros g; [reflexivity|].
  cbn [main_loop filter].
  pose proof (HID_Task_outcome g t) as Ht.
  destruct (HID_Task image_data g t) as [[g1 calls]|]; cbn [outcome] in Ht.
  - destruct (delivers t).
    + destruct (GetNextReport image_data g (JoystickInputData t)) as [[ga ra]|] eqn:E;
        [|discriminate].
      injection Ht as -> Hw. cbn [map polls]. rewrite E, <- IH.
      destruct (main_loop image_data ticks ga) as [[g2 calls']|]; cbn [outcome];
        [rewrite written_app, Hw|]; reflexivity.
    + injection Ht as -> Hw. rewrite <- IH.
      destruct (main_loop image_data ticks g) as [[g2 calls']|]; cbn [outcome];
        [rewrite written_app, Hw|]; reflexivity.
  - destruct (delivers t); [|discriminate].
    destruct (GetNextReport image_data g (JoystickInputData t)) as [[ga ra]|] eqn:E;
      [discriminate|].
    cbn [map polls]. rewrite E. reflexivity.
Qed.

(** X9.  The main loop is a pump for [GetNextReport]: over any sequence of
    passes, it fails, or ends with the globals and has written the reports,
    exactly as the calls of [GetNextReport] made one after the other on the
    buffers of the passes in which the device was configured and the IN
    endpoint ready.  The other passes change no global and write nothing. *)
Theorem X9_main_loop_pumps_GetNextReport (ticks : list Tick) (g : Globals) :
  outcome (main_loop image_data ticks g)
  = polls image_data (map JoystickInputData (filter delivers ticks)) g.
Proof. apply main_loop_outcome. Qed.

Lemma polls_exists (bufs : list USB_JoystickReport_Input_t) (g : Globals) :
  hat_codes_ok = true ->
  Z.of_nat (length image_data) = image_data_size ->
  reachable image_data g ->
  exists g' rs, polls image_data bufs g = Some (g', rs) /\ length rs = length bufs.
Proof.
  intros Hhat Hlen. revert g. induction bufs as [|b bufs IH]; intros g Hg.
  - exists g, []. split; reflexivity.
  - destruct (call_returns image_data Hlen g b (Inv_reachable image_data Hhat g Hg))
      as (g1 & r & Hcall).
    destruct (IH g1 (reach_call image_data _ _ _ _ Hg Hcall)) as (g2 & rs & Hp & Hl).
    exists g2, (r :: rs). cbn [polls length]. rewrite Hcall, Hp, Hl.
    split; reflexivity.
Qed.

(** X10.  Started with the globals at their initializers and a bitmap of the
    declared size, the main loop runs through any sequence of passes without
    reading outside [image_data]; it writes one report for each pass in which
    the device was configured and the IN endpoint ready, and the globals it
    ends with are a reachable state of [GetNextReport], with the cursor inside
    [0 <= x <= 319], [0 <= y <= 120]. *)
Theorem X10_main_loop_is_safe (ticks : list Tick) :
  hat_codes_ok = true ->
  Z.of_nat (length image_data) = image_data_size ->
  exists g calls,
    main_loop image_data ticks initial = Some (g, calls) /\
    reachable image_data g /\
    length (written calls) = length (filter delivers ticks) /\
    0 <= xpos g <= 319 /\ 0 <= ypos g <= 120.
Proof.
  intros Hhat Hlen.
  pose proof (main_loop_outcome ticks initial) as Hpump.
  destruct (polls_exists (map JoystickInputData (filter delivers ticks)) initial
              Hhat Hlen (reach_initial image_data)) as (g & rs & Hp & Hl).
  rewrite Hp in Hpump.
  destruct (main_loop image_data ticks initial) as [[g' calls]|]; [|discriminate].
  cbn [outcome] in Hpump. injection Hpump as -> Hw.
  exists g, calls. split; [reflexivity|].
  assert (Hreach : reachable image_data g)
    by exact (polls_reachable _ _ _ _ (reach_initial image_data) Hp).
  split; [exact Hreach|]. split; [rewrite Hw, Hl, length_map; reflexivity|].
  pose proof (Inv_counters_small g (Inv_reachable image_data Hhat g Hreach)). lia.
Qed.

Lemma polls_buffers (bufs bufs' : list USB_JoystickReport_Input_t) (g : Globals) :
  length bufs = length bufs' -> polls image_data bufs g = polls image_data bufs' g.
Proof.
  revert bufs' g. induction bufs as [|b bufs IH]; intros [|b' bufs'] g Hlen;
    try discriminate; [reflexivity|].
  cbn [polls]. rewrite (GetNextReport_buffer image_data g b b').
  destruct (GetNextReport image_data g b') as [[g1 r]|]; [|reflexivity].
  rewrite (IH bufs' g1) by (cbn [length] in Hlen; lia). reflexivity.
Qed.

(** X11.  Nothing the host sends reaches the synthesizer: two sequences of
    passes that agree, pass by pass, on whether the device is configured with
    the IN endpoint ready end with the same globals and write the same
    reports, whatever OUT packets arrived, whatever they held and whatever
    the uninitialized report buffers held. *)
Theorem X11_host_data_is_ignored (ticks ticks' : list Tick) (g : Globals) :
  map delivers ticks = map delivers ticks' ->
  outcome (main_loop image_data ticks g) = outcome (main_loop image_data ticks' g).
Proof.
  intros Hsame. rewrite !main_loop_outcome.
  apply polls_buffers. rewrite !length_map.
  revert ticks' Hsame. induction ticks as [|t ticks IH]; intros [|t' ticks'] Hsame;
    try discriminate; [reflexivity|].
  cbn [map] in Hsame. injection Hsame as Ht Hrest. cbn [filter]. rewrite Ht.
  destruct (delivers t'); cbn [length]; rewrite (IH ticks' Hrest); reflexivity.
Qed.

Lemma HID_Task_out (g g' : Globals) (t : Tick) (calls : list USB_call) :
  HID_Task image_data g t = Some (g', calls) ->
  stream_reads calls = (if out_readable t then [out_data t] else []) /\
  out_acks calls = (if out_pending t then 1 else 0)%nat.
Proof.
  unfold HID_Task, out_readable, out_pending.
  destruct (configured t); cbn [negb andb].
  2:{ intros [= _ <-]. split; reflexivity. }
  destruct (in_ready t).
  - destruct (GetNextReport image_data g (JoystickInputData t)) as [[g1 r]|];
      [|discriminate].
    intros [= _ <-]. rewrite !stream_reads_app, !out_acks_app.
    destruct (out_received t); [destruct (read_write_allowed t)|]; split; reflexivity.
  - intros [= _ <-]. rewrite !stream_reads_app, !out_acks_app.
    destruct (out_received t); [destruct (read_write_allowed t)|]; split; reflexivity.
Qed.

(** X12.  The loop drains the OUT endpoint: over a run of the main loop,
    every OUT packet found while the device is configured is acknowledged
    with [Endpoint_ClearOUT], whether it could be read or not, and the data
    read are those of the packets found readable, in order; nothing else is
    read or acknowledged. *)
Theorem X12_out_packets_are_drained (ticks : list Tick) (g g' : Globals)
  (calls : list USB_call) :
  main_loop image_data ticks g = Some (g', calls) ->
  stream_reads calls = map out_data (filter out_readable ticks) /\
  out_acks calls = length (filter out_pending ticks).
Proof.
  revert g g' calls.
  induction ticks as [|t ticks IH]; intros g g' calls; cbn [main_loop].
  - intros [= _ <-]. split; reflexivity.
  - destruct (HID_Task image_data g t) as [[g1 c1]|] eqn:Ht; [|discriminate].
    destruct (main_loop image_data ticks g1) as [[g2 c2]|] eqn:Hrest; [|discriminate].
    intros [= <- <-]. destruct (IH g1 g2 c2 Hrest) as [Hr Ha].
    destruct (HID_Task_out _ _ _ _ Ht) as [Hr1 Ha1].
    rewrite stream_reads_app, out_acks_app, Hr, Ha, Hr1, Ha1. cbn [filter].
    destruct (out_readable t); destruct (out_pending t); split; reflexivity.
Qed.

(** *** The macros *)

(** X13.  [ms_2_count] never divides by zero: whatever [POLLING_MS] is (zero
    and negative values included) its divisor is at least 8.  For [ms >= 0]
    the count lies between 0 and [ms / 16], equals [ms / 16] when
    [POLLING_MS] is below 16, and does not decrease when [ms] grows. *)
Theorem X13_ms_2_count_is_bounded (ms : Z) :
  0 <= ms ->
  8 <= Z.quot (max POLLING_MS 8) 8 * 8 /\
  0 <= ms_2_count ms <= ms / 16 /\
  (POLLING_MS < 16 -> ms_2_count ms = ms / 16) /\
  (forall ms', ms <= ms' -> ms_2_count ms <= ms_2_count ms').
Proof.
  intros Hms. split; [apply ms_2_count_divisor|]. split.
  { pose proof (ms_2_count_range ms Hms) as H.
    rewrite Z.quot_div_nonneg in H by lia. exact H. }
  split.
  - intros Hp. unfold ms_2_count, ECHOES, max.
    replace (Z.quot (if POLLING_MS >? 8 then POLLING_MS else 8) 8 * 8) with 8
      by (destruct (Z.gtb_spec POLLING_MS 8); dlia).
    rewrite !Z.quot_div_nonneg by dlia. rewrite Z.div_div by lia. reflexivity.
  - intros ms' Hle. apply ms_2_count_mono. lia.
Qed.


End Further.

(** ** The properties on concrete runs *)

Section Runs.

#[local] Existing Instance sample_header.

Lemma sample_hat_codes_ok : hat_codes_ok = true.
Proof. reflexivity. Qed.

Lemma white_image_size : Z.of_nat (length white_image) = image_data_size.
Proof. reflexivity. Qed.

Lemma dot_image_size : Z.of_nat (length dot_image) = image_data_size.
Proof. reflexivity. Qed.

Lemma sample_draw_start : draw_start = 379.
Proof. reflexivity. Qed.

(** With the sample header the scan of the white bitmap ends, after 79579
    logical steps, in phase [STOP] at [(0, 120)], and one step later in
    [DONE]. *)
Lemma white_final_stop :
  leads_to white_image (Z.to_nat 79579) initial (stop_state 120 0).
Proof.
  change (Z.to_nat 79579) with (Z.to_nat (draw_start + 79200)).
  apply final_stop_reached; reflexivity.
Qed.

Lemma white_done :
  leads_to white_image (Z.to_nat 79580) initial (done_state white_image).
Proof.
  change (Z.to_nat 79580) with (Z.to_nat (draw_start + 79201)).
  apply done_reached; reflexivity.
Qed.

(** The closed form against plain evaluation of the code: the first row. *)
Example first_row_by_evaluation :
  option_map fst (steps white_image 1039 initial) = Some (stop_state 1 0).
Proof. vm_compute. reflexivity. Qed.

Lemma white_final_stop_reachable : reachable white_image (stop_state 120 0).
Proof.
  eapply leads_to_reachable; [apply reach_initial | apply white_final_stop].
Qed.

Lemma white_done_reachable : reachable white_image (done_state white_image).
Proof.
  eapply leads_to_reachable; [apply reach_initial | apply white_done].
Qed.

(** C1 fails as stated: after 79579 logical steps (238737 calls) the cursor
    row is 120, outside [0, 119], and the call about to be made queries the
    bitmap there. *)
Lemma C1_counterexample :
  exists g,
    leads_to white_image (Z.to_nat 79579) initial g /\
    reachable white_image g /\ queries_bitmap g /\
    xpos g = 0 /\ ypos g = 120 /\ ~ (0 <= ypos g <= 119).
Proof.
  exists (stop_state 120 0).
  split; [apply white_final_stop|]. split; [apply white_final_stop_reachable|].
  split; [split; reflexivity|]. split; [reflexivity|]. split; [reflexivity|].
  cbn [ypos stop_state]. lia.
Qed.

Lemma C1_witness :
  0 <= xpos (stop_state 120 0) <= 319 /\ 0 <= ypos (stop_state 120 0) <= 120 /\
  (ypos (stop_state 120 0) = 120 ->
   xpos (stop_state 120 0) = 0 /\
   (state (stop_state 120 0) = STOP \/ state (stop_state 120 0) = DONE)) /\
  (queries_bitmap (stop_state 120 0) ->
   on_canvas (xpos (stop_state 120 0)) (ypos (stop_state 120 0)) \/
   (xpos (stop_state 120 0) = 0 /\ ypos (stop_state 120 0) = 120)).
Proof.
  apply (C1_cursor_stays_in_range white_image (stop_state 120 0));
    [reflexivity | apply white_final_stop_reachable].
Defined.

(** C5 fails as stated in phase [DONE]: the call returns a report and leaves
    the echo counter at 0, so no replay follows it. *)
Lemma C5_counterexample :
  reachable white_image (done_state white_image) /\
  echoes (done_state white_image) = 0 /\
  GetNextReport white_image (done_state white_image) blank
  = Some (done_state white_image, neutral_report) /\
  ~ echo_law white_image (done_state white_image).
Proof.
  split; [apply white_done_reachable|]. split; [reflexivity|].
  split; [reflexivity|].
  intros Hlaw.
  destruct (Hlaw blank (done_state white_image) neutral_report eq_refl) as [Hpos _].
  cbn [echoes done_state] in Hpos. lia.
Qed.

Lemma C5_witness :
  (state initial <> DONE ->
   echo_law white_image initial /\
   forall b g1 r, GetNextReport white_image initial b = Some (g1, r) ->
                  echoes g1 = ECHOES /\ last_report g1 = r) /\
  (state initial = DONE ->
   forall b, GetNextReport white_image initial b = Some (initial, neutral_report)).
Proof.
  apply (C5_echo_law_before_done white_image initial). cbn [echoes initial]. lia.
Defined.

(** C9 fails as stated: called in [DONE] on a buffer that holds something
    else, the call overwrites the buffer with the neutral report. *)
Lemma C9_counterexample :
  reachable white_image (done_state white_image) /\
  state (done_state white_image) = DONE /\ echoes (done_state white_image) = 0 /\
  GetNextReport white_image (done_state white_image) stale_buffer
  = Some (done_state white_image, neutral_report) /\
  ~ leaves_buffer_unpopulated white_image (done_state white_image) stale_buffer.
Proof.
  split; [apply white_done_reachable|]. repeat split.
  unfold leaves_buffer_unpopulated. discriminate.
Qed.

Lemma C9_witness :
  GetNextReport white_image (done_state white_image) stale_buffer
  = Some (done_state white_image, neutral_report).
Proof.
  apply (C9_done_returns_neutral white_image (done_state white_image) stale_buffer);
    [cbn [echoes done_state]; lia | reflexivity].
Defined.

Lemma C8_witness :
  exists byte ink,
    nth_error dot_image (Z.to_nat (9 / 8 + 1 * 40)) = Some byte /\
    is_black dot_image 9 1 = Some ink /\
    (ink <> 0 <-> Z.testbit byte (9 mod 8) = true).
Proof.
  apply (C8_is_black_reads_the_bit dot_image 9 1); [reflexivity | lia | lia].
Defined.

(** The [STOP] step at the inked pixel [(9, 1)] of [dot_image]: pair 310 of
    row 1. *)
Lemma C4_witness :
  exists ink g' r,
    is_black dot_image (xpos (stop_state 1 310)) (ypos (stop_state 1 310)) = Some ink /\
    GetNextReport dot_image (stop_state 1 310) blank = Some (g', r) /\
    (asserted SWITCH_A r <-> ink <> 0).
Proof.
  apply (C4_ink_iff_is_black dot_image (stop_state 1 310) blank);
    [reflexivity | cbn [echoes stop_state]; lia | reflexivity | vm_compute; split; [discriminate | reflexivity]].
Defined.

Lemma C6_witness :
  exists g1 r1,
    GetNextReport white_image (stop_state 120 0) blank = Some (g1, r1) /\
    state g1 = DONE /\ xpos g1 = xpos (stop_state 120 0) /\
    ypos g1 = ypos (stop_state 120 0) /\
    forall bufs, exists g2 rs,
      polls white_image bufs g1 = Some (g2, rs) /\
      state g2 = DONE /\ xpos g2 = xpos (stop_state 120 0) /\
      ypos g2 = ypos (stop_state 120 0).
Proof.
  apply (C6_done_is_absorbing white_image (stop_state 120 0) blank);
    [reflexivity | reflexivity | apply white_final_stop_reachable
    | cbn [echoes stop_state]; lia | reflexivity | cbn [ypos stop_state]; lia].
Defined.

Lemma C10_witness :
  (exists g' r, GetNextReport white_image (stop_state 120 0) blank = Some (g', r)) /\
  (queries_bitmap (stop_state 120 0) ->
   0 <= is_black_index (xpos (stop_state 120 0)) (ypos (stop_state 120 0)) <= 4800 /\
   is_black_index (xpos (stop_state 120 0)) (ypos (stop_state 120 0))
   < image_data_size /\
   (exists byte,
      pgm_read_byte white_image
        (is_black_index (xpos (stop_state 120 0)) (ypos (stop_state 120 0)))
      = Some byte) /\
   ypos (stop_state 120 0) <= 120 /\
   (ypos (stop_state 120 0) = 120 ->
    xpos (stop_state 120 0) = 0 /\
    exists g' r,
      GetNextReport white_image (stop_state 120 0) blank = Some (g', r) /\
      state g' = DONE)) /\
  (exists g120, reachable white_image g120 /\ queries_bitmap g120 /\
                xpos g120 = 0 /\ ypos g120 = 120 /\
                is_black_index (xpos g120) (ypos g120) = 4800).
Proof.
  apply (C10_bitmap_reads_in_bounds white_image (stop_state 120 0) blank);
    [reflexivity | reflexivity | apply white_final_stop_reachable].
Defined.

(** Row 1 is odd: its sixth [MOVE] step is taken at column 314 and reports
    the direction left. *)
Lemma C2_witness :
  exists g g' r,
    leads_to white_image (Z.to_nat (draw_start + 2 * (330 * 1 + 5) + 1)) initial g /\
    state g = MOVE /\ echoes g = 0 /\ ypos g = 1 /\
    xpos g = (if Z.even 1 then Z.min 5 319 else 319 - Z.min 5 319) /\
    logical_step white_image g = Some (g', r) /\
    HAT r = (if Z.even 1 then HAT_RIGHT else HAT_LEFT) /\
    state g' = STOP /\ ypos g' = 1 /\
    xpos g' = (if Z.even 1 then Z.min (5 + 1) 319 else 319 - Z.min (5 + 1) 319).
Proof.
  apply (C2_row_parity_sets_direction white_image 1 5);
    [reflexivity | reflexivity | lia | lia].
Defined.

Lemma C3_witness :
  (exists g g' r,
     leads_to white_image (Z.to_nat (draw_start + 2 * (330 * 1 + 318) + 1)) initial g /\
     state g = MOVE /\ ypos g = 1 /\ ~ at_boundary (xpos g) (ypos g) /\
     logical_step white_image g = Some (g', r) /\
     xpos g' = edge_column 1 /\ ypos g' = 1 /\ at_boundary (xpos g') (ypos g') /\
     splat3_lag_correction_count g' = 0) /\
  (exists g g' r,
     leads_to white_image
       (Z.to_nat (draw_start + 2 * (330 * 1 + (319 + 3)) + 1)) initial g /\
     state g = MOVE /\ xpos g = edge_column 1 /\ ypos g = 1 /\
     at_boundary (xpos g) (ypos g) /\ splat3_lag_correction_count g = 3 /\
     logical_step white_image g = Some (g', r) /\
     HAT r = scan_dir 1 /\
     state g' = STOP /\ xpos g' = edge_column 1 /\ ypos g' = 1 /\
     splat3_lag_correction_count g' = 3 + 1) /\
  (exists g g' r,
     leads_to white_image (Z.to_nat (draw_start + 2 * (330 * 1 + 329) + 1)) initial g /\
     state g = MOVE /\ xpos g = edge_column 1 /\ ypos g = 1 /\
     splat3_lag_correction_count g = 10 /\
     logical_step white_image g = Some (g', r) /\
     HAT r = HAT_BOTTOM /\
     state g' = STOP /\ xpos g' = edge_column 1 /\ ypos g' = 1 + 1 /\
     splat3_lag_correction_count g' = 0).
Proof.
  apply (C3_lag_correction_window white_image 1 3);
    [reflexivity | reflexivity | lia | lia].
Defined.

(** C7 fails as stated, on the duration and on the sticks.  With the sample
    header [ms_2_count 4000] is 250 and [SYNC_POSITION] is entered after 127
    logical steps; 250 logical steps later the phase is still
    [SYNC_POSITION], with [command_count] at 250, and it becomes [STOP] two
    steps after that.  A step of the phase drives the left stick to
    [STICK_MIN] and leaves the right stick at [STICK_CENTER], which is not
    the minimum. *)
Lemma C7_counterexample :
  ms_2_count 4000 = 250 /\
  leads_to white_image 127 initial (position_state 0) /\
  state (position_state 0) = SYNC_POSITION /\
  command_count (position_state 0) = 0 /\
  (exists g, leads_to white_image 250 (position_state 0) g /\
             state g = SYNC_POSITION /\ command_count g = 250) /\
  (exists g, leads_to white_image 252 (position_state 0) g /\
             state g = STOP /\ xpos g = 0 /\ ypos g = 0) /\
  (exists g r, GetNextReport white_image (position_state 0) blank = Some (g, r) /\
               state g = SYNC_POSITION /\
               LX r = STICK_MIN /\ LY r = STICK_MIN /\
               RX r = STICK_CENTER /\ RY r = STICK_CENTER /\
               RX r <> STICK_MIN /\ RY r <> STICK_MIN).
Proof.
  split; [reflexivity|].
  split; [eexists; vm_compute; reflexivity|].
  split; [reflexivity|]. split; [reflexivity|].
  split; [eexists; (split; [eexists; vm_compute; reflexivity|]); repeat split|].
  split; [eexists; (split; [eexists; vm_compute; reflexivity|]); repeat split|].
  eexists. eexists. split; [vm_compute; reflexivity|].
  repeat split; discriminate.
Qed.

Lemma C7_witness :
  leads_to white_image (Z.to_nat (ms_2_count 2000 + 2)) initial (position_state 0) /\
  (forall k, 0 <= k <= ms_2_count 4000 ->
     leads_to white_image (Z.to_nat k) (position_state 0) (position_state k) /\
     state (position_state k) = SYNC_POSITION /\
     exists r,
       logical_step white_image (position_state k) = Some (position_state (k + 1), r) /\
       LX r = u8 STICK_MIN /\ LY r = u8 STICK_MIN /\
       RX r = u8 STICK_CENTER /\ RY r = u8 STICK_CENTER /\
       (asserted SWITCH_LCLICK r <-> k = ms_2_count 1500 \/ k = ms_2_count 3000)) /\
  0 <= ms_2_count 1500 /\ ms_2_count 1500 < ms_2_count 3000 /\
  ms_2_count 3000 <= ms_2_count 4000 /\
  leads_to white_image (Z.to_nat (ms_2_count 4000 + 1)) (position_state 0)
    (position_state (ms_2_count 4000 + 1)) /\
  state (position_state (ms_2_count 4000 + 1)) = SYNC_POSITION /\
  exists g,
    logical_step white_image (position_state (ms_2_count 4000 + 1))
    = Some (g, neutral_report) /\
    leads_to white_image (Z.to_nat (ms_2_count 4000 + 2)) (position_state 0) g /\
    state g = STOP /\ xpos g = 0 /\ ypos g = 0 /\
    ~ asserted SWITCH_LCLICK neutral_report.
Proof.
  apply (C7_sync_position_phase white_image); reflexivity.
Defined.

(** *** Further properties *)

(** The report of the [STOP] step at the inked pixel of [dot_image], and the
    globals the call leaves. *)
Definition inked_report : USB_JoystickReport_Input_t :=
  set_Button neutral_report (u16 (Z.lor 0 SWITCH_A)).

Definition after_inked_stop : Globals :=
  {| state := MOVE; echoes := 2; splat3_lag_correction_count := 0;
     last_report := inked_report; command_count := 0; xpos := 9; ypos := 1 |}.

(** The globals after the first call from [initial], and what the three
    passes of [sample_ticks] make the loop call. *)
Definition after_first_call : Globals :=
  {| state := SYNC_CONTROLLER; echoes := 2; splat3_lag_correction_count := 0;
     last_report := neutral_report; command_count := 1; xpos := 0; ypos := 0 |}.

Definition sample_calls : list USB_call :=
  [ Endpoint_SelectEndpoint JOYSTICK_OUT_EPADDR; Endpoint_Read_Stream_LE [1; 2];
    Endpoint_ClearOUT; Endpoint_SelectEndpoint JOYSTICK_IN_EPADDR;
    Endpoint_SelectEndpoint JOYSTICK_OUT_EPADDR;
    Endpoint_SelectEndpoint JOYSTICK_IN_EPADDR;
    Endpoint_Write_Stream_LE neutral_report; Endpoint_ClearIN ].

Lemma dot_stop_run :
  leads_to dot_image (Z.to_nat (draw_start + 2 * (330 * 1 + 310))) initial
    (stop_state 1 310).
Proof. apply stop_reached; (reflexivity || lia). Qed.

Lemma dot_stop_reachable : reachable dot_image (stop_state 1 310).
Proof. eapply leads_to_reachable; [apply reach_initial | apply dot_stop_run]. Qed.

Lemma dot_stop_call :
  GetNextReport dot_image (stop_state 1 310) blank = Some (after_inked_stop, inked_report).
Proof. vm_compute. reflexivity. Qed.

Lemma X1_witness :
  leads_to white_image (Z.to_nat 7) initial (controller_state 7) /\
  state (controller_state 7) = SYNC_CONTROLLER /\
  command_count (controller_state 7) = 7 /\
  logical_step white_image (controller_state 7)
  = Some (controller_state (7 + 1), neutral_report) /\
  leads_to white_image (Z.to_nat (ms_2_count 2000 + 1)) initial
    (controller_state (ms_2_count 2000 + 1)) /\
  exists g,
    logical_step white_image (controller_state (ms_2_count 2000 + 1))
    = Some (g, neutral_report) /\
    state g = SYNC_POSITION /\ command_count g = 0 /\ xpos g = 0 /\ ypos g = 0.
Proof.
  apply (X1_sync_controller_phase white_image 7). vm_compute.
  split; discriminate.
Defined.

Lemma X2_witness :
  In inked_report report_alphabet /\
  RX inked_report = u8 STICK_CENTER /\ RY inked_report = u8 STICK_CENTER /\
  (HAT inked_report <> u8 HAT_CENTER -> Button inked_report = 0) /\
  (hat_codes_ok = true -> HAT inked_report <> HAT_TOP).
Proof.
  apply (X2_reports_are_among_seven dot_image (stop_state 1 310) after_inked_stop
           blank inked_report);
    [apply dot_stop_reachable | apply dot_stop_call].
Defined.

Lemma X3_witness :
  pen_moved (stop_state 1 310) after_inked_stop /\
  ypos (stop_state 1 310) <= ypos after_inked_stop.
Proof.
  apply (X3_pen_moves_one_pixel_never_up dot_image (stop_state 1 310) after_inked_stop
           blank inked_report);
    [reflexivity | apply dot_stop_reachable | apply dot_stop_call].
Defined.

Lemma X4_witness :
  exists ink,
    is_black dot_image (xpos after_inked_stop) (ypos after_inked_stop) = Some ink /\
    ink <> 0.
Proof.
  apply (X4_ink_only_on_inked_pixels dot_image (stop_state 1 310) after_inked_stop
           blank inked_report);
    [reflexivity | reflexivity | apply dot_stop_reachable | apply dot_stop_call
    | vm_compute; discriminate].
Defined.

Lemma X5_witness :
  exists n g g' r ink,
    leads_to dot_image n initial g /\ queries_bitmap g /\
    xpos g = 9 /\ ypos g = 1 /\
    logical_step dot_image g = Some (g', r) /\
    xpos g' = 9 /\ ypos g' = 1 /\
    is_black dot_image 9 1 = Some ink /\
    (asserted SWITCH_A r <-> ink <> 0).
Proof.
  apply (X5_every_pixel_is_visited dot_image 9 1);
    [reflexivity | reflexivity | reflexivity | lia | lia].
Defined.

Lemma X6_witness :
  (exists g, leads_to white_image 1000 initial g) /\
  (forall g, leads_to white_image 1000 initial g ->
             (state g = DONE <-> draw_start + 79201 <= Z.of_nat 1000)) /\
  4 <= draw_start <= 379.
Proof.
  apply (X6_done_after_exactly white_image 1000); reflexivity.
Defined.

Lemma X7_witness :
  Z.to_nat (draw_start + 2 * (330 * 1 + 310))
  = Z.to_nat (draw_start + 2 * (330 * 1 + 310)).
Proof.
  apply (X7_inner_pixels_are_visited_once dot_image
           (Z.to_nat (draw_start + 2 * (330 * 1 + 310)))
           (Z.to_nat (draw_start + 2 * (330 * 1 + 310)))
           (stop_state 1 310) (stop_state 1 310));
    [reflexivity | reflexivity | apply dot_stop_run | apply dot_stop_run
    | split; reflexivity | split; reflexivity | reflexivity | reflexivity
    | vm_compute; discriminate].
Defined.

Lemma X8_witness :
  polls white_image
    [stale_buffer; blank; stale_buffer; blank; stale_buffer; blank] initial =
  match steps white_image 2 initial with
  | None => None
  | Some (g', rs) => Some (g', tripled rs)
  end.
Proof.
  apply (X8_calls_are_tripled_steps white_image 2 initial
           [stale_buffer; blank; stale_buffer; blank; stale_buffer; blank]);
    [cbn [echoes initial]; lia | reflexivity].
Defined.

Lemma X10_witness :
  exists g calls,
    main_loop white_image sample_ticks initial = Some (g, calls) /\
    reachable white_image g /\
    length (written calls) = length (filter delivers sample_ticks) /\
    0 <= xpos g <= 319 /\ 0 <= ypos g <= 120.
Proof.
  apply (X10_main_loop_is_safe white_image sample_ticks); reflexivity.
Defined.

Lemma X11_witness :
  outcome (main_loop white_image sample_ticks initial)
  = outcome (main_loop white_image quiet_ticks initial).
Proof.
  apply (X11_host_data_is_ignored white_image sample_ticks quiet_ticks initial).
  reflexivity.
Defined.

Lemma X12_witness :
  stream_reads sample_calls = map out_data (filter out_readable sample_ticks) /\
  out_acks sample_calls = length (filter out_pending sample_ticks).
Proof.
  apply (X12_out_packets_are_drained white_image sample_ticks initial
           after_first_call sample_calls).
  reflexivity.
Defined.

Lemma X13_witness :
  8 <= Z.quot (max POLLING_MS 8) 8 * 8 /\
  0 <= ms_2_count 4000 <= 4000 / 16 /\
  (POLLING_MS < 16 -> ms_2_count 4000 = 4000 / 16) /\
  (forall ms', 4000 <= ms' -> ms_2_count 4000 <= ms_2_count ms').
Proof.
  apply (X13_ms_2_count_is_bounded 4000). lia.
Defined.


End Runs.
